(** * TechConnect: request handlers of [app.py] over an explicit world state

    The Flask application keeps three kinds of state: the session cookie,
    the relational store behind [user_queries] / [post_queries], and the
    two upload directories.  The handlers of [app.py] are embedded here as
    functions in a small state-and-exception monad over that state, so
    that what a handler reads, writes, flashes and returns can be computed
    and reasoned about.  [signup], [login] and [search_users] are left
    out: they only establish the session or read the user table. *)

From Stdlib Require Import Ascii.
From stdpp Require Import base option list strings gmap fin_maps sorting pretty.

Local Open Scope Z_scope.

(** ** Strings, the way Python slices them *)

Module pystr.

Definition lower_ascii (c : ascii) : ascii :=
  let n := Ascii.nat_of_ascii c in
  if ((65 <=? n)%nat && (n <=? 90)%nat)%bool
  then Ascii.ascii_of_nat (n + 32) else c.

(** [s.lower()] on the ASCII range. *)
Fixpoint lower (s : string) : string :=
  match s with
  | EmptyString => EmptyString
  | String c s' => String (lower_ascii c) (lower s')
  end.

(** The text after the last occurrence of [c], if [c] occurs at all. *)
Fixpoint after_last (c : ascii) (s : string) : option string :=
  match s with
  | EmptyString => None
  | String a s' =>
      match after_last c s' with
      | Some t => Some t
      | None => if Ascii.eqb a c then Some s' else None
      end
  end.

(** [s.split('.')[-1]]: the whole string when it has no dot. *)
Definition split_dot_last (s : string) : string :=
  default s (after_last "." s).

(** [s.rsplit('.', 1)[1]]: there is no index 1 when [s] has no dot. *)
Definition rsplit_dot_1 (s : string) : option string :=
  after_last "." s.

Fixpoint is_prefix (p s : string) : bool :=
  match p, s with
  | EmptyString, _ => true
  | String a p', String b s' => Ascii.eqb a b && is_prefix p' s'
  | String _ _, EmptyString => false
  end.

(** [needle in s] *)
Fixpoint contains (needle s : string) : bool :=
  is_prefix needle s ||
  match s with
  | EmptyString => false
  | String _ s' => contains needle s'
  end.

(** [sep.join(l)] *)
Fixpoint join (sep : string) (l : list string) : string :=
  match l with
  | [] => ""
  | [x] => x
  | x :: l' => x +:+ sep +:+ join sep l'
  end.

Definition nonempty (s : string) : bool :=
  match s with EmptyString => false | _ => true end.

End pystr.

(** ** Values *)

(** What a cell of a row or of a form dictionary can hold. *)
Inductive pyval :=
| VNone
| VBool (b : bool)
| VInt (n : Z)
| VStr (s : string).

Global Instance pyval_eq_dec : EqDecision pyval.
Proof. solve_decision. Defined.

(** [v == n] for an integer literal [n]; Python's [False == 0] and
    [True == 1] hold. *)
Definition py_eq_int (v : pyval) (n : Z) : bool :=
  match v with
  | VInt m => bool_decide (m = n)
  | VBool b => bool_decide ((if b then 1 else 0) = n)
  | _ => false
  end.

(** A row of the [user] table, and the cleaned form data written to it. *)
Abbreviation row := (gmap string pyval).

(** A row of the [post] table.  [posted_by] is whatever [session.get]
    returned when the post was written. *)
Record post_row := PostRow {
  post_id : Z;
  posted_by : option Z;
  header : option string;
  post_type : option string;
  host_name : option string;
  target_audience : option string;
  job_role : option string;
  job_level : option string;
  post_body : option string;
  created : Z
}.

Global Instance post_row_eq_dec : EqDecision post_row.
Proof. solve_decision. Defined.

(** ** The world a request runs in *)

(** The session cookie.  app.py only ever sets, tests and pops these four
    keys; a key that is not in the session is [None] here. *)
Record session_t := Session {
  s_username : option string;
  s_user_id : option Z;
  s_logged_in : option bool;
  s_visits : option Z
}.

Definition empty_session : session_t := Session None None None None.

Record store := Store {
  profiles : gmap Z row;               (* user table, by uid *)
  picfile : gmap Z string;             (* profile picture filename, by uid *)
  posts : gmap Z post_row;                 (* post table, by post id *)
  post_files : list (Z * string);      (* attachment rows: post id, filename *)
  next_post_id : Z                     (* auto-increment counter *)
}.

Record filesys := Filesys {
  profile_uploads : gmap string string;   (* PROFILE_UPLOADS: name -> bytes *)
  post_uploads : gmap string string       (* POST_UPLOADS: name -> bytes *)
}.

(** One entry per call into [user_queries] / [post_queries]. *)
Inductive db_call :=
| GetUserNameByUid (uid : option Z)
| GetLatestPosts (n : nat)
| GetPostsByUser (uid : option Z)
| ServeProfilePicture (uid : option Z)
| GetProfile (uid : option Z)
| AddUserInfo (uid : option Z)
| UploadProfilePic (uid : option Z) (filename : string)
| DeleteProfilePic (uid : option Z)
| UpdateProfile (uid : option Z)
| DeleteUser (uid : option Z)
| GetPostInfo (pid : Z)
| ServePostFile (pid : Z)
| CreatePost (uid : option Z)
| UploadPostFile (pid : Z) (filename : option string)
| DeletePost (pid : Z)
| DeletePostFile (pid : Z) (filename : string)
| EditPost (pid : Z)
| SearchPosts (user_input audience type host role : option string).

Record world := World {
  session : session_t;
  flashes : list string;
  db : store;
  fs : filesys;
  db_log : list db_call
}.

Definition set_session (f : session_t → session_t) (w : world) : world :=
  World (f (session w)) (flashes w) (db w) (fs w) (db_log w).
Definition set_flashes (f : list string → list string) (w : world) : world :=
  World (session w) (f (flashes w)) (db w) (fs w) (db_log w).
Definition set_db (f : store → store) (w : world) : world :=
  World (session w) (flashes w) (f (db w)) (fs w) (db_log w).
Definition set_fs (f : filesys → filesys) (w : world) : world :=
  World (session w) (flashes w) (db w) (f (fs w)) (db_log w).
Definition set_db_log (f : list db_call → list db_call) (w : world) : world :=
  World (session w) (flashes w) (db w) (fs w) (f (db_log w)).

(** ** Exceptions and the handler monad *)

Inductive exn :=
| KeyError (key : string)
| BadRequestKeyError (key : string)
| IndexError
| ValueError (msg : string)
| AttributeError (msg : string)
| TypeError (msg : string)
| BuildError (endpoint : string)
| FileNotFoundError (path : string).

(** [str(e)] *)
Definition str_exn (e : exn) : string :=
  match e with
  | KeyError k => "'" +:+ k +:+ "'"
  | BadRequestKeyError k => "400 Bad Request: KeyError: '" +:+ k +:+ "'"
  | IndexError => "list index out of range"
  | ValueError m => m
  | AttributeError m => m
  | TypeError m => m
  | BuildError ep => "Could not build url for endpoint '" +:+ ep +:+ "'."
  | FileNotFoundError p => "[Errno 2] No such file or directory: '" +:+ p +:+ "'"
  end.

Inductive result (A : Type) :=
| Ok (a : A)
| Raise (e : exn).
Arguments Ok {A} a.
Arguments Raise {A} e.

(** A computation runs in a world and leaves a world behind, also when it
    raises: what was written before the exception stays written. *)
Definition M (A : Type) : Type := world → result A * world.

Global Instance M_ret : MRet M := λ A a w, (Ok a, w).
Global Instance M_bind : MBind M := λ A B f m w,
  match m w with
  | (Ok a, w') => f a w'
  | (Raise e, w') => (Raise e, w')
  end.

Definition raise {A} (e : exn) : M A := λ w, (Raise e, w).

(** [try: body except Exception as e: handler(e)] *)
Definition try_except {A} (body : M A) (handler : exn → M A) : M A := λ w,
  match body w with
  | (Ok a, w') => (Ok a, w')
  | (Raise e, w') => handler e w'
  end.

Definition get_world : M world := λ w, (Ok w, w).
Definition modify (f : world → world) : M unit := λ w, (Ok (), f w).

(** [for x in l: body(x)] *)
Fixpoint for_each {A} (l : list A) (body : A → M unit) : M unit :=
  match l with
  | [] => mret ()
  | x :: l' => body x ;; for_each l' body
  end.

Definition flash (msg : string) : M unit :=
  modify (set_flashes (λ fl, fl ++ [msg])).

Definition log_call (c : db_call) : M unit :=
  modify (set_db_log (λ l, l ++ [c])).

(** A query reads the store, a statement rewrites it; both leave their
    call in the log. *)
Definition db_read {A} (c : db_call) (f : store → A) : M A :=
  log_call c ;; w ← get_world ; mret (f (db w)).
Definition db_write (c : db_call) (f : store → store) : M unit :=
  log_call c ;; modify (set_db f).

(** ** helper.py *)

Module helper.

(** How the normalizer treats a form field. *)
Inductive field_kind :=
| Boolean      (* string to boolean coercion *)
| Optional     (* empty string / "None" to null coercion *)
| Plain.       (* pass-through *)

Section normalizer.

(** Which fields the normalizer recognizes as boolean-typed and which as
    optional is fixed by helper.py and the form templates. *)
Variable kind_of : string → field_kind.

Definition is_boolean (k : string) : bool :=
  match kind_of k with Boolean => true | _ => false end.
Definition is_optional (k : string) : bool :=
  match kind_of k with Optional => true | _ => false end.

Definition to_bool (v : pyval) : pyval :=
  match v with
  | VStr s => VBool (bool_decide (s = "true") || bool_decide (s = "on"))
  | _ => v
  end.

Definition to_None (v : pyval) : pyval :=
  match v with
  | VStr s => if bool_decide (s = "") || bool_decide (s = "None") then VNone else v
  | _ => v
  end.

(** Modelled from the spec: helper.convert_to_bool (helper.py is not part
    of the sources).  "string→boolean coercion for fields recognized as
    boolean-typed ("true"/"on" → true, else false)"; every other field is
    left as it is. *)
Definition convert_to_bool (d : row) : row :=
  map_imap (λ k v, Some (if is_boolean k then to_bool v else v)) d.

(** Modelled from the spec: helper.convert_to_None (helper.py is not part
    of the sources).  "empty-string/"None"-string → null coercion for
    optional fields"; every other field is left as it is. *)
Definition convert_to_None (d : row) : row :=
  map_imap (λ k v, Some (if is_optional k then to_None v else v)) d.

(** The normalizer as app.py applies it in profile_setup and
    update_profile: first the booleans, then the nulls. *)
Definition normalize (d : row) : row :=
  convert_to_None (convert_to_bool d).

End normalizer.

End helper.

(** ** user_queries.py *)

Module user_db.

Definition with_profiles (f : gmap Z row → gmap Z row) (s : store) : store :=
  Store (f (profiles s)) (picfile s) (posts s) (post_files s) (next_post_id s).
Definition with_picfile (f : gmap Z string → gmap Z string) (s : store) : store :=
  Store (profiles s) (f (picfile s)) (posts s) (post_files s) (next_post_id s).

(** A [None] uid reaches SQL as NULL and matches no row. *)
Definition at_uid {A} (uid : option Z) (f : Z → gmap Z A → gmap Z A)
    (m : gmap Z A) : gmap Z A :=
  match uid with Some u => f u m | None => m end.

(** Modelled from the spec: user_queries.get_profile, the row of the user
    table keyed by the uid, or None. *)
Definition get_profile (uid : option Z) : M (option row) :=
  db_read (GetProfile uid) (λ s, u ← uid ; profiles s !! u).

(** Modelled from the spec: user_queries.add_user_info; "profile
    attributes populated/edited later": the cleaned form values are
    written over the user's row. *)
Definition add_user_info (uid : option Z) (user_data : row) : M unit :=
  db_write (AddUserInfo uid)
    (with_profiles (at_uid uid (λ u m, <[u := user_data ∪ default ∅ (m !! u)]> m))).

(** Modelled from the spec: user_queries.update_profile, as
    [add_user_info] but on an existing row only. *)
Definition update_profile (uid : option Z) (user_data : row) : M unit :=
  db_write (UpdateProfile uid)
    (with_profiles (at_uid uid (λ u m, alter (λ old, user_data ∪ old) u m))).

(** Modelled from the spec: user_queries.serve_profile_picture, "an
    optional profile picture reference": the filename row or None. *)
Definition serve_profile_picture (uid : option Z) : M (option string) :=
  db_read (ServeProfilePicture uid) (λ s, u ← uid ; picfile s !! u).

(** Modelled from the spec: user_queries.upload_profile_pic records the
    filename as the user's picture reference. *)
Definition upload_profile_pic (uid : option Z) (filename : string) : M unit :=
  db_write (UploadProfilePic uid filename)
    (with_picfile (at_uid uid (λ u m, <[u := filename]> m))).

(** Modelled from the spec: user_queries.delete_profile_pic drops the
    user's picture reference. *)
Definition delete_profile_pic (uid : option Z) : M unit :=
  db_write (DeleteProfilePic uid) (with_picfile (at_uid uid (λ u m, delete u m))).

Section delete_user.

(** The columns a deleted account keeps (the name and the uid); their
    names are part of the schema, which is not among the sources. *)
Variable retained : string → bool.

Definition nullify (r : row) : row :=
  map_imap (λ k v, Some (if retained k then v else VNone)) r.

(** Modelled from the spec: user_queries.delete_user; "deletion nullifies
    attributes but may retain identity". *)
Definition delete_user (uid : option Z) : M unit :=
  db_write (DeleteUser uid) (with_profiles (at_uid uid (λ u m, alter nullify u m))).

End delete_user.

End user_db.

(** ** post_queries.py *)

Module post_db.

Definition with_posts (f : gmap Z post_row → gmap Z post_row) (s : store) : store :=
  Store (profiles s) (picfile s) (f (posts s)) (post_files s) (next_post_id s).
Definition with_post_files (f : list (Z * string) → list (Z * string))
    (s : store) : store :=
  Store (profiles s) (picfile s) (posts s) (f (post_files s)) (next_post_id s).

(** [p] is at least as recent as [q]. *)
Definition newer (p q : post_row) : Prop := created q ≤ created p.

Global Instance newer_dec p q : Decision (newer p q).
Proof. unfold newer. apply _. Defined.

Definition all_posts (s : store) : list post_row := (map_to_list (posts s)).*2.

(** ORDER BY recency DESC *)
Definition by_recency (l : list post_row) : list post_row := merge_sort newer l.

(** Modelled from the spec: post_queries.get_latest_posts, "the N most
    recent posts overall". *)
Definition get_latest_posts (n : nat) : M (list post_row) :=
  db_read (GetLatestPosts n) (λ s, take n (by_recency (all_posts s))).

(** Modelled from the spec: post_queries.get_posts_by_user, the posts
    whose author reference is the given user, most recent first. *)
Definition get_posts_by_user (uid : option Z) : M (list post_row) :=
  db_read (GetPostsByUser uid)
    (λ s, match uid with
          | Some u => by_recency (filter (λ p, posted_by p = Some u) (all_posts s))
          | None => []
          end).

(** Modelled from the spec: post_queries.get_user_name_by_uid, the name
    attribute of the user's row. *)
Definition get_user_name_by_uid (uid : option Z) : M (option pyval) :=
  db_read (GetUserNameByUid uid) (λ s, u ← uid ; r ← profiles s !! u ; r !! "name").

(** Modelled from the spec: post_queries.get_post_info, the row of the
    post table keyed by the post id, or None. *)
Definition get_post_info (pid : Z) : M (option post_row) :=
  db_read (GetPostInfo pid) (λ s, posts s !! pid).

(** Modelled from the spec: post_queries.serve_post_file, the filenames
    of the attachment rows whose owning post is [pid]. *)
Definition serve_post_file (pid : Z) : M (list string) :=
  db_read (ServePostFile pid)
    (λ s, (filter (λ r, r.1 = pid) (post_files s)).*2).

(** Modelled from the spec: post_queries.create_post; "given author
    identity and field values, assigns a new identifier and creation
    timestamp/order". *)
Definition create_post (new_header new_target_audience new_job_role
    new_job_level new_host_name new_post_type : option string)
    (user_id : option Z) (new_post_body : option string) : M Z :=
  log_call (CreatePost user_id) ;;
  w ← get_world ;
  let pid := next_post_id (db w) in
  let p := PostRow pid user_id new_header new_post_type new_host_name
             new_target_audience new_job_role new_job_level new_post_body pid in
  modify (set_db (λ s, Store (profiles s) (picfile s) (<[pid := p]> (posts s))
                         (post_files s) (pid + 1))) ;;
  mret pid.

(** Modelled from the spec: post_queries.upload_post_file adds an
    attachment row (filename, owning post). *)
Definition upload_post_file (pid : Z) (filename : option string) : M unit :=
  db_write (UploadPostFile pid filename)
    (with_post_files (λ l, match filename with
                           | Some f => l ++ [(pid, f)]
                           | None => l
                           end)).

(** Modelled from the spec: post_queries.delete_post_file removes the
    attachment row of that post and filename. *)
Definition delete_post_file (pid : Z) (file_name : string) : M unit :=
  db_write (DeletePostFile pid file_name)
    (with_post_files (filter (λ r, r ≠ (pid, file_name)))).

(** Modelled from the spec: post_queries.delete_post; "cascades to delete
    all attachments (both store records and underlying file data) and the
    post record itself". *)
Definition delete_post (pid : Z) : M unit :=
  log_call (DeletePost pid) ;;
  w ← get_world ;
  let names := (filter (λ r, r.1 = pid) (post_files (db w))).*2 in
  modify (set_fs (λ f, Filesys (profile_uploads f)
                         (foldr delete (post_uploads f) names))) ;;
  modify (set_db (λ s, Store (profiles s) (picfile s) (delete pid (posts s))
                         (filter (λ r, r.1 ≠ pid) (post_files s))
                         (next_post_id s))).

(** One entry of the diff: the field's name and its new value, when the
    submitted value differs from the stored one. *)
Definition changed (field : string) (stored input : option string)
    : list (string * option string) :=
  if decide (stored = input) then [] else [(field, input)].

(** Modelled from the spec: post_queries.edit_post; "computes a diff
    between supplied fields and stored fields, applies only changed
    fields, and reports which fields changed". *)
Definition edit_post (pid : Z) (post_info : post_row)
    (input_header input_post_type input_host_name input_target_audience
     input_job_role input_job_level input_post_body : option string)
    : M (list (string * option string)) :=
  log_call (EditPost pid) ;;
  let updates :=
    changed "header" (header post_info) input_header ++
    changed "post_type" (post_type post_info) input_post_type ++
    changed "host_name" (host_name post_info) input_host_name ++
    changed "target_audience" (target_audience post_info) input_target_audience ++
    changed "job_role" (job_role post_info) input_job_role ++
    changed "job_level" (job_level post_info) input_job_level ++
    changed "post_body" (post_body post_info) input_post_body in
  (if bool_decide (updates = []) then mret ()
   else modify (set_db (with_posts (alter (λ p,
          PostRow (post_id p) (posted_by p) input_header input_post_type
            input_host_name input_target_audience input_job_role
            input_job_level input_post_body (created p)) pid)))) ;;
  mret updates.

(** A filter contributes a clause only when it is supplied and not
    empty. *)
Definition clause (flt : option string) (test : string → bool) : bool :=
  match flt with
  | Some s => if pystr.nonempty s then test s else true
  | None => true
  end.

Definition icontains (needle : string) (field : option string) : bool :=
  match field with
  | Some s => pystr.contains (pystr.lower needle) (pystr.lower s)
  | None => false
  end.

Definition has_substring (needle : string) (field : option string) : bool :=
  match field with
  | Some s => pystr.contains needle s
  | None => false
  end.

Definition is_exactly (wanted : string) (field : option string) : bool :=
  bool_decide (field = Some wanted).

(** The conjunction of the clauses of spec section 4.3. *)
Definition matches (user_input audience type host role : option string)
    (p : post_row) : bool :=
  clause user_input (λ q, icontains q (header p) || icontains q (post_body p))
  && clause type (λ t, is_exactly t (post_type p))
  && clause host (λ h, has_substring h (host_name p))
  && clause role (λ r, has_substring r (job_role p))
  && clause audience (λ a, is_exactly a (target_audience p)).

(** Modelled from the spec: post_queries.search_posts; "sequence of
    matching posts ordered by recency descending". *)
Definition search_posts (user_input audience type host role : option string)
    : M (list post_row) :=
  db_read (SearchPosts user_input audience type host role)
    (λ s, by_recency
            (filter (λ p, matches user_input audience type host role p = true)
                    (all_posts s))).

End post_db.

(** ** Requests and responses *)

Inductive http_method := GET | POST.

Record file_storage := FileStorage {
  filename : string;
  content : string
}.

(** [request.form] and [request.files] are multi-dicts: a key holds the
    list of the values submitted under it. *)
Record request := Request {
  method : http_method;
  form : gmap string (list string);
  args : gmap string string;
  files : gmap string (list file_storage)
}.

Definition form_get (r : request) (k : string) : option string :=
  form r !! k ≫= head.
Definition form_getlist (r : request) (k : string) : list string :=
  default [] (form r !! k).
Definition files_get (r : request) (k : string) : option file_storage :=
  files r !! k ≫= head.
Definition files_getlist (r : request) (k : string) : list file_storage :=
  default [] (files r !! k).

(** [request.files[k]] *)
Definition files_item (r : request) (k : string) : M file_storage :=
  match files_get r k with
  | Some f => mret f
  | None => raise (BadRequestKeyError k)
  end.

(** [dict(request.form)]: the first value of every key. *)
Definition dict_of_form (r : request) : row :=
  omap (λ l, VStr <$> head l) (form r).

(** [bool(f)] for an uploaded file is [bool(f.filename)]. *)
Definition file_truthy (f : option file_storage) : bool :=
  match f with
  | Some f => pystr.nonempty (filename f)
  | None => false
  end.

Inductive url :=
| UIndex
| UHome
| UProfile (user_id : Z)
| UProfilePic (user_id : Z)
| UPost (post_id : Z) (uid : option Z)      (* uid: extra query argument *)
| UPostFile (post_id : Z) (filename : string)
| URequest.                                 (* request.url *)

(** The template rendered, with the values handed to it. *)
Inductive page :=
| AuthWelcome
| HomeIndex (posts current_user_posts : list post_row) (uid : option Z)
    (name : option pyval)
| ProfileView (uid : Z) (src : url) (profile_uid : Z) (profile_data : row)
| ProfileSetup (uid : option Z)
| ProfileUpdate (profile_data : row) (uid : option Z) (src : url)
| PostView (page_title : option string) (post_id : Z) (post_info : post_row)
    (files : list (string * url)) (uid : option Z)
| PostCreate (uid : option Z)
| PostEdit (post_id : Z) (post_info : post_row) (files : list (string * url))
    (uid : option Z)
| SearchPostsPage (recent_posts filtered_posts : list post_row) (uid : option Z)
| MentorshipForm (uid : option Z).

Inductive response :=
| Render (p : page)
| Redirect (target : url)
| SendFile (name data : string)
| NotFound.

(** [url_for(endpoint, user_id=uid)] for a rule with an [<int:user_id>]
    part: the URL cannot be built without the value. *)
Definition url_for_uid (endpoint : string) (mk : Z → url) (uid : option Z)
    : M url :=
  match uid with
  | Some u => mret (mk u)
  | None => raise (BuildError endpoint)
  end.

(** [send_from_directory(app.config[dir], name)] *)
Definition send_from_directory (dir : filesys → gmap string string)
    (name : string) : M response :=
  w ← get_world ;
  match dir (fs w) !! name with
  | Some data => mret (SendFile name data)
  | None => mret NotFound
  end.

Definition with_profile_uploads (f : gmap string string → gmap string string)
    (d : filesys) : filesys :=
  Filesys (f (profile_uploads d)) (post_uploads d).
Definition with_post_uploads (f : gmap string string → gmap string string)
    (d : filesys) : filesys :=
  Filesys (profile_uploads d) (f (post_uploads d)).

(** [str(x)] of a value that is an integer or None. *)
Definition str_uid (uid : option Z) : string :=
  match uid with
  | Some u => pretty u
  | None => "None"
  end.

Definition str_opt (s : option string) : string := default "None" s.

(** [session.pop(key)] for the three keys the handlers pop. *)
Definition pop_username : M unit :=
  w ← get_world ;
  match s_username (session w) with
  | Some _ => modify (set_session (λ s,
                Session None (s_user_id s) (s_logged_in s) (s_visits s)))
  | None => raise (KeyError "username")
  end.
Definition pop_user_id : M unit :=
  w ← get_world ;
  match s_user_id (session w) with
  | Some _ => modify (set_session (λ s,
                Session (s_username s) None (s_logged_in s) (s_visits s)))
  | None => raise (KeyError "user_id")
  end.
Definition pop_logged_in : M unit :=
  w ← get_world ;
  match s_logged_in (session w) with
  | Some _ => modify (set_session (λ s,
                Session (s_username s) (s_user_id s) None (s_visits s)))
  | None => raise (KeyError "logged_in")
  end.

(** [session.get('user_id')] *)
Definition session_get_user_id : M (option Z) :=
  w ← get_world ; mret (s_user_id (session w)).

(** [session['user_id']] *)
Definition session_item_user_id : M Z :=
  w ← get_world ;
  match s_user_id (session w) with
  | Some u => mret u
  | None => raise (KeyError "user_id")
  end.

(** ** app.py *)

Section app.

(** werkzeug's [secure_filename]. *)
Variable secure_filename : string → string.
(** The field classification of helper.py (see [helper.normalizer]). *)
Variable kind_of : string → helper.field_kind.
(** The columns [user_queries.delete_user] keeps. *)
Variable retained : string → bool.
(** The display helpers of helper.py and post_queries.py: they only
    rewrite the values they are given, or raise. *)
Variable convert_None_to_string : row → row.
Variable format_post_values : option post_row → result (option post_row).
Variable format_posts_values : list post_row → result (list post_row).

Definition lift {A} (r : result A) : M A := λ w, (r, w).

Definition is_logged_in : M bool :=
  w ← get_world ;
  match s_user_id (session w) with
  | None =>
      flash "Session has expired or you are not logged in." ;;
      mret false
  | Some _ => mret true
  end.

Definition index : M response :=
  w ← get_world ;
  match s_user_id (session w) with
  | None => mret (Render AuthWelcome)
  | Some _ => mret (Redirect UHome)
  end.

Definition home : M response :=
  ok ← is_logged_in ;
  if negb ok then mret (Redirect UIndex) else
  user_id ← session_get_user_id ;
  user_name ← post_db.get_user_name_by_uid user_id ;
  let num_posts := 10%nat in
  unformatted_recent_posts ← post_db.get_latest_posts num_posts ;
  recent_posts ← lift (format_posts_values unformatted_recent_posts) ;
  unformatted_user_posts ← post_db.get_posts_by_user user_id ;
  current_user_posts ← lift (format_posts_values unformatted_user_posts) ;
  mret (Render (HomeIndex recent_posts current_user_posts user_id user_name)).

Definition profile_pic (user_id : Z) : M response :=
  ok ← is_logged_in ;
  if negb ok then mret (Redirect UIndex) else
  row ← user_db.serve_profile_picture (Some user_id) ;
  match row with
  | Some name => send_from_directory profile_uploads name
  | None => send_from_directory profile_uploads "default_profile.png"
  end.

Definition post_file (post_id : Z) (filename : string) : M response :=
  ok ← is_logged_in ;
  if negb ok then mret (Redirect UIndex) else
  send_from_directory post_uploads filename.

Definition logout : M response :=
  ok ← is_logged_in ;
  if (ok : bool) then
    pop_username ;;
    pop_user_id ;;
    pop_logged_in ;;
    flash "You are logged out" ;;
    mret (Redirect UIndex)
  else mret (Redirect UIndex).

(** [d[k]] *)
Definition dict_item (d : row) (k : string) : M pyval :=
  match d !! k with
  | Some v => mret v
  | None => raise (KeyError k)
  end.

Definition profile (user_id : Z) : M response :=
  ok ← is_logged_in ;
  if negb ok then mret (Redirect UIndex) else
  session_uid ← session_item_user_id ;
  profile_data ← user_db.get_profile (Some user_id) ;
  match profile_data with
  | Some d =>
      if bool_decide (d = ∅)
      then flash "User profile not found.." ;; mret (Redirect UHome)
      else
        let d := convert_None_to_string d in
        v ← dict_item d "is_interested_in_mentorship" ;
        let shown :=
          if py_eq_int v 0 then "Not Interested"
          else if py_eq_int v 1 then "Interested"
          else "Not Specified (Inactive User)" in
        let d := <["is_interested_in_mentorship" := VStr shown]> d in
        mret (Render (ProfileView session_uid (UProfilePic user_id) user_id d))
  | None => flash "User profile not found.." ;; mret (Redirect UHome)
  end.

(** The form data as both profile handlers clean it before it is
    stored. *)
Definition cleaned_user_data (req : request) : row :=
  let user_data := dict_of_form req in
  let career_interests := form_getlist req "career_interests[]" in
  let career_interests_str := pystr.join ", " career_interests in
  let user_data := <["career_interests" := VStr career_interests_str]> user_data in
  let user_data := helper.convert_to_bool kind_of user_data in
  helper.convert_to_None kind_of user_data.

Definition allowed_extensions : list string := ["png"; "jpg"; "jpeg"].

(** [f.save(os.path.join(app.config['PROFILE_UPLOADS'], name))] *)
Definition save_profile_upload (f : file_storage) (name : string) : M unit :=
  modify (set_fs (with_profile_uploads (λ d, <[name := content f]> d))).

Definition truthy_uid (uid : option Z) : bool :=
  match uid with
  | Some u => negb (bool_decide (u = 0))
  | None => false
  end.

Definition profile_setup (req : request) : M response :=
  user_id ← session_get_user_id ;
  if negb (truthy_uid user_id) then
    flash "User not logged in." ;; mret (Redirect UIndex)
  else
  match method req with
  | GET => mret (Render (ProfileSetup user_id))
  | POST =>
      try_except
        (let user_data := cleaned_user_data req in
         user_db.add_user_info user_id user_data ;;
         f ← files_item req "pic" ;
         if file_truthy (Some f) then
           let user_filename := filename f in
           let ext := pystr.split_dot_last user_filename in
           if negb (bool_decide (ext ∈ allowed_extensions)) then
             flash "Invalid file type. Only image files are allowed." ;;
             mret (Render (ProfileSetup user_id))
           else
             let name := secure_filename (str_uid user_id +:+ "." +:+ ext) in
             save_profile_upload f name ;;
             user_db.upload_profile_pic user_id name ;;
             u ← url_for_uid "profile" UProfile user_id ;
             mret (Redirect u)
         else
           u ← url_for_uid "profile" UProfile user_id ;
           mret (Redirect u))
        (λ err,
           flash "Error setting up profile. Please try again." ;;
           mret (Render (ProfileSetup user_id)))
  end.

(** The tail of [update_profile]: the update form with the stored
    profile. *)
Definition render_update_form (user_id : option Z) : M response :=
  profile_data ← user_db.get_profile user_id ;
  match profile_data with
  | None => raise (AttributeError "'NoneType' object has no attribute 'get'")
  | Some d =>
      let d := match d !! "phone_number" with
               | None | Some VNone => <["phone_number" := VStr ""]> d
               | Some _ => d
               end in
      src ← url_for_uid "profile_pic" UProfilePic user_id ;
      mret (Render (ProfileUpdate d user_id src))
  end.

(** [os.path.exists(p) and os.path.isfile(p)] followed by
    [os.remove(p)] and the deletion of the picture row. *)
Definition remove_picture_if_on_disk (user_id : option Z) (name : string)
    (and_then : M unit) : M unit :=
  w ← get_world ;
  match profile_uploads (fs w) !! name with
  | Some _ =>
      modify (set_fs (with_profile_uploads (delete name))) ;;
      user_db.delete_profile_pic user_id ;;
      and_then
  | None => mret ()
  end.

Definition update_profile (req : request) : M response :=
  ok ← is_logged_in ;
  if negb ok then mret (Redirect UIndex) else
  user_id ← session_get_user_id ;
  match method req with
  | POST =>
      let delete_file := form_get req "delete_file" in
      f ← files_item req "pic" ;
      returned ←
        (if bool_decide (delete_file = Some "yes") then
           result ← user_db.serve_profile_picture user_id ;
           match result with
           | Some name =>
               remove_picture_if_on_disk user_id name
                 (flash "Profile picture deleted successfully.") ;;
               mret None
           | None => mret None
           end
         else if pystr.nonempty (filename f) then
           let user_filename := filename f in
           let ext := pystr.split_dot_last user_filename in
           if negb (bool_decide (ext ∈ allowed_extensions)) then
             flash "Invalid file type. Only image files are allowed." ;;
             r ← render_update_form user_id ;
             mret (Some r)
           else
             let name := secure_filename (str_uid user_id +:+ "." +:+ ext) in
             save_profile_upload f name ;;
             user_db.upload_profile_pic user_id name ;;
             mret None
         else mret None) ;
      match returned with
      | Some r => mret r
      | None =>
          let user_data := cleaned_user_data req in
          returned ←
            try_except
              (user_db.update_profile user_id user_data ;;
               flash "Your profile was updated successfully!" ;;
               u ← url_for_uid "profile" UProfile user_id ;
               mret (Some (Redirect u)))
              (λ err,
                 flash "Failed to update your profile. Please try again" ;;
                 mret None) ;
          match returned with
          | Some r => mret r
          | None => render_update_form user_id
          end
      end
  | GET => render_update_form user_id
  end.

Definition delete_profile : M response :=
  user_id ← session_get_user_id ;
  try_except
    (user_db.delete_user retained user_id ;;
     result ← user_db.serve_profile_picture user_id ;
     (match result with
      | Some name => remove_picture_if_on_disk user_id name (mret ())
      | None => mret ()
      end : M unit) ;;
     pop_username ;;
     pop_user_id ;;
     pop_logged_in ;;
     flash "Your account has been successfully deleted. We’re sorry to see you go." ;;
     mret (Redirect UIndex))
    (λ err,
       flash "Something went wrong while deleting your account. Please try again." ;;
       u ← url_for_uid "profile" UProfile None ;
       mret (Redirect u)).

(** *** Post helper functions *)

Definition ALLOWED_EXTENSIONS : list string :=
  ["png"; "jpg"; "jpeg"; "webp"; "pdf"; "doc"; "docx"; "xls"; "xlsx"].

Definition invalid_file_type : string :=
  "Invalid file type. Allowed: png, jpg, jpeg, webp, pdf, doc, docx, xls, xlsx.".

(** Validates and saves an uploaded file. *)
Definition save_post_file (file : option file_storage) (post_id : Z)
    : M (option string) :=
  match file with
  | Some f =>
      if pystr.nonempty (filename f) then
        ext ← match pystr.rsplit_dot_1 (filename f) with
              | Some e => mret (pystr.lower e)
              | None => raise IndexError
              end ;
        if negb (bool_decide (ext ∈ ALLOWED_EXTENSIONS)) then
          raise (ValueError invalid_file_type)
        else
          let new_filename :=
            secure_filename (pretty post_id +:+ "_" +:+ filename f) in
          modify (set_fs (with_post_uploads (λ d, <[new_filename := content f]> d))) ;;
          mret (Some new_filename)
      else mret None
  | None => mret None
  end.

(** Deletes a file from the POST_UPLOADS directory.  [filename] is
    taken as the name of an entry of that directory, which is what
    [os.path.join] makes of a name without path parts ([plain_name]
    below); a name with path parts addresses a file elsewhere on the
    disk, which the flat directories of [filesys] do not follow, so the
    properties that reach this function with a name from a form are
    stated for plain names. *)
Definition delete_post_file (filename : string) : M unit :=
  w ← get_world ;
  match post_uploads (fs w) !! filename with
  | Some _ => modify (set_fs (with_post_uploads (delete filename)))
  | None => raise (FileNotFoundError ("uploads/post_uploads/" +:+ filename))
  end.

(** *** Post and related search *)

Definition file_links (post_id : Z) (files : list string)
    : list (string * url) :=
  (λ name, (name, UPostFile post_id name)) <$> files.

Definition post (post_id : Z) : M response :=
  ok ← is_logged_in ;
  if negb ok then mret (Redirect UIndex) else
  user_id ← session_get_user_id ;
  post ← post_db.get_post_info post_id ;
  post_info ← lift (format_post_values post) ;
  files ← post_db.serve_post_file post_id ;
  let files := file_links post_id files in
  match post_info with
  | Some info =>
      uid ← session_get_user_id ;
      mret (Render (PostView (header info) post_id info files uid))
  | None => raise (TypeError "'NoneType' object is not subscriptable")
  end.

Definition create_post (req : request) : M response :=
  ok ← is_logged_in ;
  if negb ok then mret (Redirect UIndex) else
  user_id ← session_get_user_id ;
  match method req with
  | GET => mret (Render (PostCreate user_id))
  | POST =>
      let new_header := form_get req "header" in
      let new_post_type := form_get req "post_type" in
      let new_host_name := form_get req "host_name" in
      let new_target_audience := form_get req "target_audience" in
      let new_job_role := form_get req "job_role" in
      let new_job_level := form_get req "job_level" in
      let new_post_body := form_get req "post_body" in
      let new_files := files_getlist req "file[]" in
      post_id ← post_db.create_post new_header new_target_audience
                  new_job_role new_job_level new_host_name new_post_type
                  user_id new_post_body ;
      returned ←
        match new_files with
        | [] => mret None
        | _ =>
            try_except
              (for_each new_files (λ new_file,
                 if pystr.nonempty (filename new_file) then
                   new_filename ← save_post_file (Some new_file) post_id ;
                   post_db.upload_post_file post_id new_filename ;;
                   flash "File successfully uploaded."
                 else mret ()) ;;
               mret None)
              (λ e, flash (str_exn e) ;; mret (Some (Redirect URequest)))
        end ;
      match returned with
      | Some r => mret r
      | None => mret (Redirect (UPost post_id None))
      end
  end.

Definition newline : string := String (Ascii.ascii_of_nat 10) "".

(** The test of the "No updates" branch of [edit_post]:
    [not (updates or input_file or input_file.filename or files_to_delete)],
    evaluated left to right with Python's short-circuit [or]. *)
Definition nothing_changed (updates : list (string * option string))
    (input_file : option file_storage) (files_to_delete : list string)
    : M bool :=
  match updates with
  | _ :: _ => mret false
  | [] =>
      if file_truthy input_file then mret false
      else
        match input_file with
        | None =>
            raise (AttributeError "'NoneType' object has no attribute 'filename'")
        | Some f =>
            if pystr.nonempty (filename f) then mret false
            else mret (bool_decide (files_to_delete = []))
        end
  end.

Definition edit_post (post_id : Z) (req : request) : M response :=
  ok ← is_logged_in ;
  if negb ok then mret (Redirect UIndex) else
  user_id ← session_get_user_id ;
  post_info ← post_db.get_post_info post_id ;
  match post_info with
  | None => raise (AttributeError "'NoneType' object has no attribute 'get'")
  | Some info =>
      if negb (bool_decide (user_id = posted_by info)) then
        flash "Access denied: Only post author is authorized to edit this post." ;;
        mret (Redirect (UPost post_id user_id))
      else
      match method req with
      | GET =>
          files ← post_db.serve_post_file post_id ;
          mret (Render (PostEdit post_id info (file_links post_id files) user_id))
      | POST =>
          if bool_decide (form_get req "submit" = Some "Delete Entire Post") then
            try_except
              (post_db.delete_post post_id ;;
               flash ("Post(" +:+ str_opt (header info) +:+ ") was deleted successfully"))
              (λ e, flash ("Error deleting post: " +:+ str_exn e)) ;;
            mret (Redirect UHome)
          else
            try_except
              (let input_header := form_get req "header" in
               let input_post_type := form_get req "post_type" in
               let input_host_name := form_get req "host_name" in
               let input_target_audience := form_get req "target_audience" in
               let input_job_role := form_get req "job_role" in
               let input_job_level := form_get req "job_level" in
               let input_post_body := form_get req "post_body" in
               let input_file := files_get req "input_file" in
               let files_to_delete := form_getlist req "delete_files[]" in
               for_each files_to_delete (λ file_name,
                 try_except
                   (post_db.delete_post_file post_id file_name ;;
                    delete_post_file file_name ;;
                    flash ("Successfully deleted " +:+ file_name))
                   (λ err, flash ("Error: failed to delete file(s)" +:+ newline
                                    +:+ str_exn err))) ;;
               updates ← post_db.edit_post post_id info input_header
                           input_post_type input_host_name input_target_audience
                           input_job_role input_job_level input_post_body ;
               for_each updates (λ field,
                 flash ("Successfully updated " +:+ field.1 +:+ "!")) ;;
               returned ←
                 (if file_truthy input_file then
                    try_except
                      (new_filename ← save_post_file input_file post_id ;
                       post_db.upload_post_file post_id new_filename ;;
                       flash "File successfully uploaded." ;;
                       mret None)
                      (λ e, flash (str_exn e) ;; mret (Some (Redirect URequest)))
                  else
                    unchanged ← nothing_changed updates input_file files_to_delete ;
                    (if (unchanged : bool)
                     then flash "No changes were made to the post."
                     else mret ()) ;;
                    mret None) ;
               match returned with
               | Some r => mret r
               | None => mret (Redirect (UPost post_id None))
               end)
              (λ e,
                 flash ("An unexpected error occurred: " +:+ str_exn e
                          +:+ ". Please try again.") ;;
                 mret (Redirect UHome))
      end
  end.

Definition search_posts (req : request) : M response :=
  ok ← is_logged_in ;
  if negb ok then mret (Redirect UIndex) else
  let num_posts := 10%nat in
  recent_posts ← post_db.get_latest_posts num_posts ;
  let user_input := args req !! "user-input" in
  let audience_value := args req !! "target-audience" in
  let type_value := args req !! "post-type" in
  let type_value :=
    if bool_decide (type_value = Some "none") then None else type_value in
  let host_value := args req !! "host-name" in
  let role_value := args req !! "job-role" in
  filtered_posts ← post_db.search_posts user_input audience_value type_value
                     host_value role_value ;
  uid ← session_get_user_id ;
  mret (Render (SearchPostsPage recent_posts filtered_posts uid)).

(** *** Mentorship *)

Definition mentorship (req : request) : M response :=
  ok ← is_logged_in ;
  if negb ok then mret (Redirect UIndex) else
  user_id ← session_get_user_id ;
  match method req with
  | GET => mret (Render (MentorshipForm user_id))
  | POST =>
      flash "Thank you for filling out the mentorship form!" ;;
      mret (Redirect UHome)
  end.

End app.

(** ** Request builders *)

Definition with_arg (k v : string) (req : request) : request :=
  Request (method req) (form req) (<[k := v]> (args req)) (files req).
Definition without_arg (k : string) (req : request) : request :=
  Request (method req) (form req) (delete k (args req)) (files req).

(** The session that signup and login leave behind. *)
Definition logged_in_as (uid : Z) (name : string) : session_t :=
  Session (Some name) (Some uid) (Some true) (Some 1).

Definition empty_store : store := Store ∅ ∅ ∅ [] 1.
Definition empty_fs : filesys := Filesys ∅ ∅.

Definition keep_names (k : string) : bool :=
  bool_decide (k ∈ ["uid"; "name"]).


(** ** What a search request asks for (spec section 4.3) *)

(** [needle] occurs in [s]. *)
Definition substring_of (needle s : string) : Prop :=
  ∃ before after, s = before +:+ needle +:+ after.





(** [p] is a row of the post table. *)
Definition stored (w : world) (p : post_row) : Prop :=
  ∃ pid, posts (db w) !! pid = Some p.

(** ** Attachments as [save_post_file] judges them *)

(** The file has a name whose extension [save_post_file] accepts. *)
Definition allowed (f : file_storage) : Prop :=
  filename f ≠ "" ∧
  ∃ e, pystr.rsplit_dot_1 (filename f) = Some e
       ∧ pystr.lower e ∈ ALLOWED_EXTENSIONS.

(** The file has a name, and its extension, if it has one, is not among
    the allowed ones. *)
Definition disallowed (f : file_storage) : Prop :=
  filename f ≠ "" ∧
  ∀ e, pystr.rsplit_dot_1 (filename f) = Some e
       → pystr.lower e ∉ ALLOWED_EXTENSIONS.

(** The name an accepted attachment is stored under. *)
Definition stored_name (sf : string → string) (pid : Z) (f : file_storage)
    : string :=
  sf (pretty pid +:+ "_" +:+ filename f).

(** The files of an upload list that carry a filename. *)
Definition named (l : list file_storage) : list file_storage :=
  filter (λ f, filename f ≠ "") l.

(** The body of the upload loop of [create_post], as a function of its
    own. *)
Definition attach_one (sf : string → string) (pid : Z) (new_file : file_storage)
    : M unit :=
  if pystr.nonempty (filename new_file) then
    new_filename ← save_post_file sf (Some new_file) pid ;
    post_db.upload_post_file pid new_filename ;;
    flash "File successfully uploaded."
  else mret ().

(** The world after an accepted attachment went through the loop body. *)
Definition attached (sf : string → string) (pid : Z) (w : world)
    (f : file_storage) : world :=
  World (session w) (flashes w ++ ["File successfully uploaded."])
    (post_db.with_post_files (λ l, l ++ [(pid, stored_name sf pid f)]) (db w))
    (with_post_uploads (λ d, <[stored_name sf pid f := content f]> d) (fs w))
    (db_log w ++ [UploadPostFile pid (Some (stored_name sf pid f))]).

(** ** Messages the properties refer to *)

Definition gate_flash : string := "Session has expired or you are not logged in.".

(** The answer of a gated handler to a request without a login. *)
Definition turned_away (w : world) : result response * world :=
  (Ok (Redirect UIndex), set_flashes (λ fl, fl ++ [gate_flash]) w).

Definition access_denied : string :=
  "Access denied: Only post author is authorized to edit this post.".

Definition unexpected_filename_error : string :=
  "An unexpected error occurred: 'NoneType' object has no attribute 'filename'. Please try again.".

Definition profile_not_found : string := "User profile not found..".

(** ** Concrete scenarios *)

Definition alice : session_t := logged_in_as 1 "alice".

Definition fresh_world : world := World alice [] empty_store empty_fs [].

Definition installer : file_storage := FileStorage "setup.exe" "MZ".

(** A new post with one attachment, an executable. *)
Definition exe_upload : request :=
  Request POST
    {[ "header" := ["Networking Night"]; "post_body" := ["Bring a friend"] ]}
    ∅
    {[ "file[]" := [installer] ]}.

Definition flyer : post_row :=
  PostRow 1 (Some 1) (Some "Networking Night") (Some "event") (Some "Career Center")
    (Some "students") None None (Some "Bring a friend") 1.

Definition opening : post_row :=
  PostRow 2 (Some 2) (Some "Backend intern") (Some "job") (Some "Initech")
    (Some "students") (Some "engineer") (Some "intern") (Some "networking tips inside") 2.

(** Two posts, by users 1 and 2, one attachment each; user 1 is logged
    in. *)
Definition two_posts_world : world :=
  World alice []
    (Store {[ 1 := {[ "name" := VStr "Alice"; "major" := VStr "CS" ]} ]}
       {[ 1 := "1.png" ]}
       {[ 1 := flyer; 2 := opening ]}
       [(1, "1_flyer.pdf"); (2, "2_offer.pdf")]
       3)
    (Filesys ∅ {[ "1_flyer.pdf" := "flyer bytes"; "2_offer.pdf" := "offer bytes" ]})
    [].

(** The edit form of post 1 resubmitted as it is, without a file part. *)
Definition resubmit_flyer : request :=
  Request POST
    {[ "submit" := ["Update Post"];
       "header" := ["Networking Night"];
       "post_type" := ["event"];
       "host_name" := ["Career Center"];
       "target_audience" := ["students"];
       "post_body" := ["Bring a friend"] ]}
    ∅ ∅.

(** An edit of post 2 submitted by user 1. *)
Definition retitle_opening : request :=
  Request POST
    {[ "submit" := ["Update Post"]; "header" := ["Free pizza"] ]}
    ∅ ∅.

(** A new post with one attachment whose extension is in upper case. *)
Definition pdf_upload : request :=
  Request POST
    {[ "header" := ["Resume workshop"] ]}
    ∅
    {[ "file[]" := [FileStorage "slides.PDF" "%PDF"] ]}.

(** The edit form of post 1 with a new header and an empty file input. *)
Definition retitle_flyer : request :=
  Request POST
    {[ "submit" := ["Update Post"];
       "header" := ["Networking Morning"];
       "post_type" := ["event"];
       "host_name" := ["Career Center"];
       "target_audience" := ["students"];
       "post_body" := ["Bring a friend"] ]}
    ∅
    {[ "input_file" := [FileStorage "" ""] ]}.

Definition search_networking : request :=
  Request GET ∅ {[ "user-input" := "networking"; "post-type" := "none" ]} ∅.

Definition mentorship_is_boolean (k : string) : helper.field_kind :=
  if bool_decide (k = "is_interested_in_mentorship") then helper.Boolean
  else if bool_decide (k = "name") then helper.Plain
  else helper.Optional.

Definition setup_form : row :=
  {[ "name" := VStr "Alice";
     "is_interested_in_mentorship" := VStr "on";
     "minor" := VStr "" ]}.

(** ** What a computation leaves behind *)

(** Whatever the computation returns or raises, the world it ends in is
    related by [R] to the world it started in. *)
Definition ends_in {A} (m : M A) (R : relation world) : Prop :=
  ∀ w, R w (m w).2.

(** The four keys of the session that app.py manages ([username],
    [user_id], [logged_in], [visits]) are as they were.  Flashed
    messages, which Flask keeps under a session key of its own, are the
    [flashes] of the world and are not part of this. *)
Definition same_session : relation world :=
  λ w w', session w' = session w.

(** The store and the upload directories are as they were. *)
Definition same_data : relation world :=
  λ w w', db w' = db w ∧ fs w' = fs w.

(** The session holds the three keys that [logout] and [delete_profile]
    pop. *)
Definition has_login_keys (s : session_t) : Prop :=
  is_Some (s_username s) ∧ is_Some (s_user_id s) ∧ is_Some (s_logged_in s).

(** ** Stand-ins for the helpers that only reformat values *)

Definition keep_name (s : string) : string := s.
Definition show_row (r : row) : row := r.
Definition show_post (p : option post_row) : result (option post_row) := Ok p.
Definition show_posts (l : list post_row) : result (list post_row) := Ok l.

(** A visitor who never logged in. *)
Definition visitor_world : world :=
  World empty_session [] (db two_posts_world) (fs two_posts_world) [].

(** The string has no dot in it. *)
Definition dotless (s : string) : Prop := ¬ substring_of "." s.

Definition final_report : file_storage :=
  FileStorage "report.final.PDF" "%PDF-1.7".

Definition readme : file_storage := FileStorage "README" "plain text".

(** The world right after [post_db.create_post] inserted the post of a
    [create_post] request. *)
Definition with_new_post (req : request) (w : world) : world :=
  let pid := next_post_id (db w) in
  World (session w) (flashes w)
    (Store (profiles (db w)) (picfile (db w))
       (<[pid := PostRow pid (s_user_id (session w)) (form_get req "header")
                   (form_get req "post_type") (form_get req "host_name")
                   (form_get req "target_audience") (form_get req "job_role")
                   (form_get req "job_level") (form_get req "post_body") pid]>
          (posts (db w)))
       (post_files (db w)) (pid + 1))
    (fs w) (db_log w ++ [CreatePost (s_user_id (session w))]).

Definition open_form : request := Request GET ∅ ∅ ∅.

(** ** The update branch of [edit_post], piece by piece *)

(** The body of the loop over [delete_files[]]. *)
Definition unlink_one (pid : Z) (file_name : string) : M unit :=
  try_except
    (post_db.delete_post_file pid file_name ;;
     delete_post_file file_name ;;
     flash ("Successfully deleted " +:+ file_name))
    (λ err, flash ("Error: failed to delete file(s)" +:+ newline
                     +:+ str_exn err)).

(** What follows the call of [post_db.edit_post]: the flashes of the
    updated fields, the upload or the "No updates" test, the redirect. *)
Definition finish_update (sf : string → string) (pid : Z) (req : request)
    (updates : list (string * option string)) : M response :=
  let input_file := files_get req "input_file" in
  let files_to_delete := form_getlist req "delete_files[]" in
  for_each updates (λ field,
    flash ("Successfully updated " +:+ field.1 +:+ "!")) ;;
  returned ←
    (if file_truthy input_file then
       try_except
         (new_filename ← save_post_file sf input_file pid ;
          post_db.upload_post_file pid new_filename ;;
          flash "File successfully uploaded." ;;
          mret None)
         (λ e, flash (str_exn e) ;; mret (Some (Redirect URequest)))
     else
       unchanged ← nothing_changed updates input_file files_to_delete ;
       (if (unchanged : bool)
        then flash "No changes were made to the post."
        else mret ()) ;;
       mret None) ;
  match returned with
  | Some r => mret r
  | None => mret (Redirect (UPost pid None))
  end.

(** The [try] block of the update branch. *)
Definition update_post (sf : string → string) (pid : Z) (req : request)
    (info : post_row) : M response :=
  for_each (form_getlist req "delete_files[]") (unlink_one pid) ;;
  updates ← post_db.edit_post pid info (form_get req "header")
              (form_get req "post_type") (form_get req "host_name")
              (form_get req "target_audience") (form_get req "job_role")
              (form_get req "job_level") (form_get req "post_body") ;
  finish_update sf pid req updates.

(** Its [except] block. *)
Definition unexpected_error (e : exn) : M response :=
  flash ("An unexpected error occurred: " +:+ str_exn e
           +:+ ". Please try again.") ;;
  mret (Redirect UHome).

(** The world after one name of [delete_files[]] went through the loop
    body: the attachment row of that post and name is gone, the file of
    that name is gone from the upload directory, and the flash says
    whether there was such a file. *)
Definition unlinked (pid : Z) (w : world) (file_name : string) : world :=
  World (session w)
    (flashes w ++
       [match post_uploads (fs w) !! file_name with
        | Some _ => "Successfully deleted " +:+ file_name
        | None =>
            "Error: failed to delete file(s)" +:+ newline +:+
            str_exn (FileNotFoundError ("uploads/post_uploads/" +:+ file_name))
        end])
    (post_db.with_post_files (filter (λ r, r ≠ (pid, file_name))) (db w))
    (with_post_uploads (delete file_name) (fs w))
    (db_log w ++ [DeletePostFile pid file_name]).

(** The author of post 1 asks for the attachment of post 2 to be
    deleted. *)
Definition unlink_foreign_file : request :=
  Request POST
    {[ "submit" := ["Update Post"];
       "header" := ["Networking Night"];
       "post_type" := ["event"];
       "host_name" := ["Career Center"];
       "target_audience" := ["students"];
       "post_body" := ["Bring a friend"];
       "delete_files[]" := ["2_offer.pdf"] ]}
    ∅
    {[ "input_file" := [FileStorage "" ""] ]}.

Definition delete_flyer : request :=
  Request POST
    {[ "submit" := ["Delete Entire Post"]; "header" := ["Ignored"] ]}
    ∅ ∅.

(** The edit form of post 1 with a new header and an executable. *)
Definition retitle_with_installer : request :=
  Request POST
    {[ "submit" := ["Update Post"];
       "header" := ["Networking Morning"];
       "post_type" := ["event"];
       "host_name" := ["Career Center"];
       "target_audience" := ["students"];
       "post_body" := ["Bring a friend"] ]}
    ∅
    {[ "input_file" := [installer] ]}.

(** The upload directories and the attachment rows are as they were. *)
Definition same_attachments : relation world :=
  λ w w', fs w' = fs w ∧ post_files (db w') = post_files (db w).

(** A profile form submitted without a [pic] part. *)
Definition setup_without_picture : request :=
  Request POST {[ "name" := ["Alice"]; "minor" := [""] ]} ∅ ∅.

Definition portrait : file_storage := FileStorage "me.jpg" "JFIF".

(** A profile form with a new picture. *)
Definition new_portrait : request :=
  Request POST {[ "name" := ["Alice"] ]} ∅ {[ "pic" := [portrait] ]}.

(** A profile form that asks for the picture to be deleted and carries a
    new one. *)
Definition delete_and_upload : request :=
  Request POST {[ "name" := ["Alice"]; "delete_file" := ["yes"] ]} ∅
    {[ "pic" := [portrait] ]}.

(** A user table whose row for user 1 stores the mentorship flag as the
    integer 1; user 1 is logged in. *)
Definition mentor_world : world :=
  World alice []
    (Store {[ 1 := {[ "name" := VStr "Alice";
                      "is_interested_in_mentorship" := VInt 1 ]} ]}
       ∅ ∅ [] 1)
    empty_fs [].

(** ** Names, errors and flashes the properties of [edit_post] speak of *)

Definition nul : string := String (Ascii.ascii_of_nat 0) "".

(** A name without path parts: not empty, not one of the two directory
    links, without a slash and without a null byte.  For such a name
    [os.path.join(app.config['POST_UPLOADS'], name)] is the entry [name]
    of the upload directory. *)
Definition plain_name (s : string) : Prop :=
  s ≠ "" ∧ s ≠ "." ∧ s ≠ ".."
  ∧ ¬ substring_of "/" s ∧ ¬ substring_of nul s.

(** What [save_post_file] raises for a named file it turns down: the
    missing list element of [rsplit('.', 1)[1]] when the name has no
    dot, the "Invalid file type" error otherwise. *)
Definition rejection (f : file_storage) : exn :=
  match pystr.rsplit_dot_1 (filename f) with
  | Some _ => ValueError invalid_file_type
  | None => IndexError
  end.

(** The fields of the edit form whose submitted value differs from the
    stored one, in the order [edit_post] hands them over, each with its
    new value. *)
Definition field_updates (info : post_row) (req : request)
    : list (string * option string) :=
  post_db.changed "header" (header info) (form_get req "header") ++
  post_db.changed "post_type" (post_type info) (form_get req "post_type") ++
  post_db.changed "host_name" (host_name info) (form_get req "host_name") ++
  post_db.changed "target_audience" (target_audience info)
    (form_get req "target_audience") ++
  post_db.changed "job_role" (job_role info) (form_get req "job_role") ++
  post_db.changed "job_level" (job_level info) (form_get req "job_level") ++
  post_db.changed "post_body" (post_body info) (form_get req "post_body").

(** The flash of one updated field. *)
Definition update_flash (field : string * option string) : string :=
  "Successfully updated " +:+ field.1 +:+ "!".

(** * Properties *)

Ltac run :=
  repeat (progress (
    unfold is_logged_in, session_get_user_id, session_item_user_id,
      pop_username, pop_user_id, pop_logged_in, flash, log_call, modify,
      get_world, raise, try_except, lift, db_read, db_write,
      url_for_uid, send_from_directory,
      mbind, M_bind, mret, M_ret in *; simpl in * )).

Ltac unset :=
  unfold set_session, set_flashes, set_db, set_fs, set_db_log,
    user_db.with_profiles, user_db.with_picfile, user_db.at_uid,
    post_db.with_posts, post_db.with_post_files,
    with_profile_uploads, with_post_uploads in *; simpl in *.

(** *** The login gate *)


Section gate.

Variable w : world.
Hypothesis anonymous : s_user_id (session w) = None.

Lemma gate_home fmt : home fmt w = turned_away w.
Proof. unfold home. run. by rewrite anonymous. Qed.

Lemma gate_profile_pic uid : profile_pic uid w = turned_away w.
Proof. unfold profile_pic. run. by rewrite anonymous. Qed.

Lemma gate_post_file pid name : post_file pid name w = turned_away w.
Proof. unfold post_file. run. by rewrite anonymous. Qed.

Lemma gate_profile conv uid : profile conv uid w = turned_away w.
Proof. unfold profile. run. by rewrite anonymous. Qed.

Lemma gate_update_profile sf kind req : update_profile sf kind req w = turned_away w.
Proof. unfold update_profile. run. by rewrite anonymous. Qed.

Lemma gate_post fmt pid : post fmt pid w = turned_away w.
Proof. unfold post. run. by rewrite anonymous. Qed.

Lemma gate_create_post sf req : create_post sf req w = turned_away w.
Proof. unfold create_post. run. by rewrite anonymous. Qed.

Lemma gate_edit_post sf pid req : edit_post sf pid req w = turned_away w.
Proof. unfold edit_post. run. by rewrite anonymous. Qed.

Lemma gate_search_posts req : search_posts req w = turned_away w.
Proof. unfold search_posts. run. by rewrite anonymous. Qed.

Lemma gate_mentorship req : mentorship req w = turned_away w.
Proof. unfold mentorship. run. by rewrite anonymous. Qed.

Lemma gate_logout : logout w = turned_away w.
Proof. unfold logout. run. by rewrite anonymous. Qed.

Lemma gate_profile_setup sf kind req :
  profile_setup sf kind req w =
    (Ok (Redirect UIndex), set_flashes (λ fl, fl ++ ["User not logged in."]) w).
Proof. unfold profile_setup. run. by rewrite anonymous. Qed.

End gate.

(** C2 (the handler the gate is missing from): with nobody logged in,
    [delete_profile] does not redirect to the welcome page.  It sends
    [delete_user] and [serve_profile_picture] to the store with a null
    uid, fails on [session.pop('username')], and the recovery path ends
    in a URL that cannot be built. *)
Theorem delete_profile_runs_without_login retained fl d f l :
  delete_profile retained (World empty_session fl d f l) =
    (Raise (BuildError "profile"),
     World empty_session
       (fl ++ ["Something went wrong while deleting your account. Please try again."])
       d f (l ++ [DeleteUser None; ServeProfilePicture None])).
Proof.
  unfold delete_profile. run.
  unfold user_db.delete_user, user_db.serve_profile_picture. run. unset.
  destruct d. simpl. by rewrite <- (assoc_L (++)).
Qed.

(** *** Account deletion *)

Lemma nullify_lookup retained (r : row) (k : string) :
  user_db.nullify retained r !! k =
    (λ v, if retained k then v else VNone) <$> r !! k.
Proof.
  unfold user_db.nullify. rewrite map_lookup_imap.
  by destruct (r !! k).
Qed.

(** C10: when the user has a picture record whose file is not in the
    upload directory, [delete_profile] completes with the redirect to the
    welcome page, every column of the user's row outside the retained ones
    is null, the three session keys are gone, and the picture record and
    the upload directories are as they were. *)
Theorem delete_profile_keeps_record_of_missing_file
    retained w uid uname flag pic :
  s_username (session w) = Some uname →
  s_user_id (session w) = Some uid →
  s_logged_in (session w) = Some flag →
  picfile (db w) !! uid = Some pic →
  profile_uploads (fs w) !! pic = None →
  ∃ w', delete_profile retained w = (Ok (Redirect UIndex), w')
    ∧ picfile (db w') = picfile (db w)
    ∧ fs w' = fs w
    ∧ (∀ r, profiles (db w) !! uid = Some r →
         ∃ r', profiles (db w') !! uid = Some r'
           ∧ ∀ k v, r !! k = Some v →
               r' !! k = Some (if retained k then v else VNone))
    ∧ s_username (session w') = None
    ∧ s_user_id (session w') = None
    ∧ s_logged_in (session w') = None.
Proof.
  intros Hname Huid Hflag Hpic Hfile.
  destruct w as [[un ui li vi] fl d f l]; simpl in *; subst.
  eexists. split.
  - unfold delete_profile. run.
    unfold user_db.delete_user, user_db.serve_profile_picture,
      remove_picture_if_on_disk. run. unset.
    rewrite Hpic. simpl. rewrite Hfile. reflexivity.
  - simpl. repeat split; try done.
    intros r Hr. rewrite lookup_alter_eq, Hr. simpl.
    eexists; split; [done|]. intros k v Hk.
    by rewrite nullify_lookup, Hk.
Qed.

(** *** Editing and deleting posts *)


(** C3: a request to the edit route (update or delete) from a logged-in
    user who is not the post's author is answered with the access-denied
    flash and a redirect to the post; the store, the upload directories
    and the session are left as they were. *)
Theorem edit_post_refuses_non_author sf pid req w uid info :
  s_user_id (session w) = Some uid →
  posts (db w) !! pid = Some info →
  posted_by info ≠ Some uid →
  ∃ w', edit_post sf pid req w = (Ok (Redirect (UPost pid (Some uid))), w')
    ∧ db w' = db w
    ∧ fs w' = fs w
    ∧ session w' = session w
    ∧ flashes w' = flashes w ++ [access_denied].
Proof.
  intros Huid Hpost Hother.
  eexists. split.
  - unfold edit_post. run. rewrite Huid. run.
    unfold post_db.get_post_info. run. rewrite Hpost.
    rewrite bool_decide_false by congruence. simpl. rewrite Huid. reflexivity.
  - by destruct w.
Qed.


Section unchanged_edit.

Variables (sf : string → string) (pid uid : Z) (req : request) (w : world)
  (info : post_row).
Hypothesis author : s_user_id (session w) = Some uid.
Hypothesis stored : posts (db w) !! pid = Some info.
Hypothesis own : posted_by info = Some uid.
Hypothesis is_post : method req = POST.
Hypothesis not_delete : form_get req "submit" ≠ Some "Delete Entire Post".
Hypothesis same_header : form_get req "header" = header info.
Hypothesis same_post_type : form_get req "post_type" = post_type info.
Hypothesis same_host_name : form_get req "host_name" = host_name info.
Hypothesis same_audience : form_get req "target_audience" = target_audience info.
Hypothesis same_job_role : form_get req "job_role" = job_role info.
Hypothesis same_job_level : form_get req "job_level" = job_level info.
Hypothesis same_post_body : form_get req "post_body" = post_body info.
Hypothesis nothing_to_delete : form_getlist req "delete_files[]" = [].

Lemma no_updates :
  post_db.edit_post pid info (form_get req "header") (form_get req "post_type")
    (form_get req "host_name") (form_get req "target_audience")
    (form_get req "job_role") (form_get req "job_level")
    (form_get req "post_body") (set_db_log (λ l, l ++ [GetPostInfo pid]) w)
  = (Ok [], set_db_log (λ l, l ++ [GetPostInfo pid; EditPost pid]) w).
Proof.
  unfold post_db.edit_post.
  rewrite same_header, same_post_type, same_host_name, same_audience,
    same_job_role, same_job_level, same_post_body.
  unfold post_db.changed. rewrite !decide_True by done. run. unset.
  by rewrite <- (assoc_L (++)).
Qed.

(** The unchanged edit as a browser submits it: the file input is part
    of the form and its filename is empty. *)
Lemma unchanged_edit_with_empty_file_input f :
  files_get req "input_file" = Some f →
  filename f = "" →
  edit_post sf pid req w =
    (Ok (Redirect (UPost pid None)),
     set_flashes (λ fl, fl ++ ["No changes were made to the post."])
       (set_db_log (λ l, l ++ [GetPostInfo pid; EditPost pid]) w)).
Proof using All.
  intros Hfile Hname. unfold edit_post. run. rewrite author. run.
  unfold post_db.get_post_info. run. rewrite stored, own, ?author.
  rewrite bool_decide_true by done. simpl. rewrite is_post.
  rewrite bool_decide_false by done.
  rewrite nothing_to_delete. simpl.
  rewrite no_updates. simpl.
  rewrite Hfile. unfold nothing_changed. simpl. rewrite Hname. simpl.
  reflexivity.
Qed.

(** The same edit when the request has no [input_file] part at all. *)
Lemma unchanged_edit_without_file_part :
  files_get req "input_file" = None →
  edit_post sf pid req w =
    (Ok (Redirect UHome),
     set_flashes (λ fl, fl ++ [unexpected_filename_error])
       (set_db_log (λ l, l ++ [GetPostInfo pid; EditPost pid]) w)).
Proof using All.
  intros Hfile. unfold edit_post. run. rewrite author. run.
  unfold post_db.get_post_info. run. rewrite stored, own, ?author.
  rewrite bool_decide_true by done. simpl. rewrite is_post.
  rewrite bool_decide_false by done.
  rewrite nothing_to_delete. simpl.
  rewrite no_updates. simpl.
  rewrite Hfile. unfold nothing_changed. simpl.
  reflexivity.
Qed.

End unchanged_edit.

(** *** Viewing an entity that is not stored *)


(** The profile view reports the absent profile and goes home. *)
Lemma profile_absent_goes_home conv user_id w uid :
  s_user_id (session w) = Some uid →
  profiles (db w) !! user_id = None →
  profile conv user_id w =
    (Ok (Redirect UHome),
     set_flashes (λ fl, fl ++ [profile_not_found])
       (set_db_log (λ l, l ++ [GetProfile (Some user_id)]) w)).
Proof.
  intros Huid Hnone.
  destruct w as [[un ui li vi] fl d f l]; simpl in *; subst.
  unfold profile. run. unfold user_db.get_profile. run. unset.
  by rewrite Hnone.
Qed.

(** The post view has no such branch: whatever the formatting helper
    makes of the missing row, nothing is flashed and the answer is never
    a redirect. *)
Lemma post_absent_no_report fmt pid w uid :
  s_user_id (session w) = Some uid →
  posts (db w) !! pid = None →
  flashes (post fmt pid w).2 = flashes w
  ∧ ∀ target, (post fmt pid w).1 ≠ Ok (Redirect target).
Proof.
  intros Huid Hnone.
  destruct w as [[un ui li vi] fl d f l]; simpl in *; subst.
  unfold post. run.
  unfold post_db.get_post_info, post_db.serve_post_file. run. unset.
  rewrite Hnone.
  destruct (fmt None) as [[info|]|e]; simpl; split; congruence.
Qed.

(** *** Serving attachments *)

(** The answer of [post_file] does not depend on the post id in the
    URL. *)
Lemma post_file_ignores_post_id pid1 pid2 name w :
  post_file pid1 name w = post_file pid2 name w.
Proof. reflexivity. Qed.

(** *** Searching posts *)


(** C4: a search whose post-type parameter is the string "none" is
    answered exactly as the same search without a post-type parameter:
    same page, same two result lists, same effect on the world, whatever
    the other filters are. *)
Theorem search_posts_type_none_is_no_filter req w :
  search_posts (with_arg "post-type" "none" req) w
  = search_posts (without_arg "post-type" req) w.
Proof.
  unfold search_posts, with_arg, without_arg. simpl.
  rewrite lookup_insert_eq, lookup_delete_eq.
  rewrite !lookup_insert_ne, !lookup_delete_ne by done.
  reflexivity.
Qed.

(** *** Substrings *)

Lemma is_prefix_spec p s :
  pystr.is_prefix p s = true ↔ ∃ rest, s = p +:+ rest.
Proof.
  revert s. induction p as [|a p IH]; intros s; simpl.
  - split; [intros _; by exists s | done].
  - destruct s as [|b s].
    + split; [done | intros [rest Hrest]; discriminate].
    + rewrite andb_true_iff, IH, Ascii.eqb_eq. split.
      * intros [-> [rest ->]]. by exists rest.
      * intros [rest Hrest]. injection Hrest as -> ->. eauto.
Qed.

Lemma contains_spec needle s :
  pystr.contains needle s = true ↔ substring_of needle s.
Proof.
  unfold substring_of. induction s as [|c s IH].
  - simpl. rewrite orb_false_r, is_prefix_spec. split.
    + intros [rest Hrest]. by exists "", rest.
    + intros [[|??] [rest Hrest]]; [by exists rest | discriminate].
  - cbn [pystr.contains]. rewrite orb_true_iff, is_prefix_spec, IH. split.
    + intros [[rest Hrest] | (before & rest & ->)].
      * by exists "", rest.
      * by exists (String c before), rest.
    + intros [[|b before] [rest Hrest]]; [left; by exists rest |].
      simpl in Hrest. injection Hrest as -> ->. right. eauto.
Qed.

(** *** Ordering by recency *)

Global Instance newer_total : Total post_db.newer.
Proof. intros p q. unfold post_db.newer. lia. Qed.

Global Instance newer_trans : Transitive post_db.newer.
Proof. intros p q r. unfold post_db.newer. lia. Qed.





(** *** Filters *)







(** *** Uploading attachments *)

Lemma nonempty_true s : pystr.nonempty s = true ↔ s ≠ "".
Proof. by destruct s. Qed.

Lemma nonempty_false s : pystr.nonempty s = false ↔ s = "".
Proof. by destruct s. Qed.

(** A disallowed file is turned down before anything is written. *)
Lemma save_post_file_rejects sf f :
  disallowed f →
  ∃ e, ∀ pid w, save_post_file sf (Some f) pid w = (Raise e, w).
Proof.
  intros [Hname Hext]. unfold save_post_file.
  apply nonempty_true in Hname. rewrite Hname. run.
  destruct (pystr.rsplit_dot_1 (filename f)) as [e|] eqn:He; simpl.
  - rewrite bool_decide_false by auto. simpl. eauto.
  - eauto.
Qed.

Lemma save_post_file_accepts sf f pid w :
  allowed f →
  save_post_file sf (Some f) pid w =
    (Ok (Some (stored_name sf pid f)),
     set_fs (with_post_uploads (λ d, <[stored_name sf pid f := content f]> d)) w).
Proof.
  intros [Hname (e & He & Hin)]. unfold save_post_file.
  apply nonempty_true in Hname. rewrite Hname, He. run.
  by rewrite bool_decide_true.
Qed.

Lemma attach_one_unnamed sf pid f w :
  filename f = "" → attach_one sf pid f w = (Ok (), w).
Proof. intros Hf. unfold attach_one. by rewrite Hf. Qed.

Lemma attach_one_allowed sf pid f w :
  allowed f → attach_one sf pid f w = (Ok (), attached sf pid w f).
Proof.
  intros Hf. unfold attach_one.
  rewrite (proj2 (nonempty_true _) (proj1 Hf)).
  unfold mbind at 1. unfold M_bind. cbv beta.
  rewrite save_post_file_accepts by done.
  unfold post_db.upload_post_file. run. unset. by destruct w.
Qed.

Lemma attach_one_disallowed sf pid f w :
  disallowed f →
  ∃ e, (∀ pid0 w0, save_post_file sf (Some f) pid0 w0 = (Raise e, w0))
       ∧ attach_one sf pid f w = (Raise e, w).
Proof.
  intros Hf. unfold attach_one.
  rewrite (proj2 (nonempty_true _) (proj1 Hf)).
  unfold mbind at 1. unfold M_bind. cbv beta.
  destruct (save_post_file_rejects sf f Hf) as [e He].
  exists e. split; [done|]. by rewrite He.
Qed.

(** The loop stops at the first disallowed file: the files before it are
    attached, the file itself and the files after it are not looked
    at. *)
Lemma upload_loop_stops sf pid before f rest w :
  Forall (λ g, filename g = "" ∨ allowed g) before →
  disallowed f →
  ∃ e, (∀ pid0 w0, save_post_file sf (Some f) pid0 w0 = (Raise e, w0))
       ∧ for_each (before ++ f :: rest) (attach_one sf pid) w
         = (Raise e, foldl (attached sf pid) w (named before)).
Proof.
  intros Hbefore Hf. revert w.
  induction Hbefore as [|g before Hg _ IH]; intros w; simpl.
  - run. destruct (attach_one_disallowed sf pid f w Hf) as (e & He & ->). eauto.
  - run. unfold named. rewrite filter_cons. destruct Hg as [Hg|Hg].
    + rewrite attach_one_unnamed by done.
      rewrite decide_False by auto. apply IH.
    + rewrite attach_one_allowed by done.
      rewrite decide_True by apply Hg. simpl. apply IH.
Qed.

Lemma attached_all_session sf pid l w :
  session (foldl (attached sf pid) w l) = session w.
Proof. revert w. induction l as [|g l IH]; intros w; simpl; [done|by rewrite IH]. Qed.

Lemma attached_all_posts sf pid l w :
  posts (db (foldl (attached sf pid) w l)) = posts (db w).
Proof. revert w. induction l as [|g l IH]; intros w; simpl; [done|by rewrite IH]. Qed.

Lemma attached_all_post_files sf pid l w :
  post_files (db (foldl (attached sf pid) w l))
  = post_files (db w) ++ ((λ g, (pid, stored_name sf pid g)) <$> l).
Proof.
  revert w. induction l as [|g l IH]; intros w; simpl.
  - by rewrite (right_id_L [] (++)).
  - rewrite IH. simpl. by rewrite <- (assoc_L (++)).
Qed.

Lemma attached_all_uploads sf pid l w :
  post_uploads (fs (foldl (attached sf pid) w l))
  = foldl (λ d g, <[stored_name sf pid g := content g]> d)
      (post_uploads (fs w)) l.
Proof. revert w. induction l as [|g l IH]; intros w; simpl; [done|by rewrite IH]. Qed.

Lemma attached_all_flashes sf pid l w :
  flashes (foldl (attached sf pid) w l)
  = flashes w ++ replicate (length l) "File successfully uploaded.".
Proof.
  revert w. induction l as [|g l IH]; intros w; simpl.
  - by rewrite (right_id_L [] (++)).
  - rewrite IH. simpl. by rewrite <- (assoc_L (++)).
Qed.

(** What [create_post] does with a disallowed attachment: the file is
    rejected before it is written or recorded, but not before the post
    is.  [save_post_file] raises and leaves the
    world as it found it; [create_post] then flashes the error and
    redirects back to the form, and the attachment rows and the upload
    directory hold the files listed before the rejected one and nothing
    of the rejected file or of the files after it.  The post record,
    inserted before the attachments are looked at, is in the store. *)
Theorem create_post_rejects_disallowed_attachment
    sf req w uid before f rest :
  s_user_id (session w) = Some uid →
  method req = POST →
  files_getlist req "file[]" = before ++ f :: rest →
  Forall (λ g, filename g = "" ∨ allowed g) before →
  disallowed f →
  let pid := next_post_id (db w) in
  ∃ e w',
    (∀ pid0 w0, save_post_file sf (Some f) pid0 w0 = (Raise e, w0))
    ∧ create_post sf req w = (Ok (Redirect URequest), w')
    ∧ post_files (db w')
        = post_files (db w)
          ++ ((λ g, (pid, stored_name sf pid g)) <$> named before)
    ∧ post_uploads (fs w')
        = foldl (λ d g, <[stored_name sf pid g := content g]> d)
            (post_uploads (fs w)) (named before)
    ∧ flashes w'
        = flashes w
          ++ replicate (length (named before)) "File successfully uploaded."
          ++ [str_exn e]
    ∧ ∃ p, posts (db w') = <[pid := p]> (posts (db w))
           ∧ posted_by p = Some uid
           ∧ header p = form_get req "header".
Proof.
  intros Huid Hpost Hfiles Hbefore Hf pid.
  destruct w as [[un ui li vi] fl d fs0 l]; simpl in *; subst.
  set (w1 := World (Session un (Some uid) li vi) fl
               (Store (profiles d) (picfile d)
                  (<[pid := PostRow pid (Some uid) (form_get req "header")
                       (form_get req "post_type") (form_get req "host_name")
                       (form_get req "target_audience") (form_get req "job_role")
                       (form_get req "job_level") (form_get req "post_body") pid]>
                     (posts d))
                  (post_files d) (pid + 1))
               fs0 (l ++ [CreatePost (Some uid)])).
  destruct (upload_loop_stops sf pid before f rest w1 Hbefore Hf)
    as (e & He & Hloop).
  exists e. eexists. split; [exact He|]. split.
  - unfold create_post. run. rewrite Hpost.
    unfold post_db.create_post. run. unset.
    rewrite Hfiles.
    destruct (before ++ f :: rest) as [|g gs] eqn:Hlist.
    { by destruct before. }
    fold pid. fold w1.
    change (for_each (g :: gs) _ w1) with (for_each (g :: gs) (attach_one sf pid) w1).
    rewrite Hloop. reflexivity.
  - simpl.
    rewrite attached_all_post_files, attached_all_uploads, attached_all_flashes,
      attached_all_posts.
    simpl. rewrite <- (assoc_L (++)). repeat split; try done. eauto.
Qed.

(** *** Profile pictures *)

(** [update_profile] turns a disallowed picture down before it touches
    the store or the upload directory. *)
Lemma update_profile_rejects_picture sf kind req w uid f :
  s_user_id (session w) = Some uid →
  method req = POST →
  form_get req "delete_file" ≠ Some "yes" →
  files_get req "pic" = Some f →
  filename f ≠ "" →
  pystr.split_dot_last (filename f) ∉ allowed_extensions →
  db (update_profile sf kind req w).2 = db w
  ∧ fs (update_profile sf kind req w).2 = fs w.
Proof.
  intros Huid Hpost Hdel Hpic Hname Hext.
  destruct w as [[un ui li vi] fl d f0 l]; simpl in *; subst.
  unfold update_profile. run. rewrite Hpost.
  unfold files_item. rewrite Hpic. run.
  rewrite bool_decide_false by done.
  rewrite (proj2 (nonempty_true _) Hname).
  rewrite bool_decide_false by done. simpl.
  unfold render_update_form, user_db.get_profile. run. unset.
  destruct (profiles d !! uid); simpl; by destruct d.
Qed.

(** [profile_setup] validates the picture after it has written the
    profile: the picture is neither saved nor recorded, the profile row
    is already there. *)
Lemma profile_setup_rejects_picture sf kind req w uid f :
  s_user_id (session w) = Some uid →
  uid ≠ 0 →
  method req = POST →
  files_get req "pic" = Some f →
  filename f ≠ "" →
  pystr.split_dot_last (filename f) ∉ allowed_extensions →
  let w' := (profile_setup sf kind req w).2 in
  picfile (db w') = picfile (db w)
  ∧ fs w' = fs w
  ∧ profiles (db w')
      = <[uid := cleaned_user_data kind req ∪ default ∅ (profiles (db w) !! uid)]>
          (profiles (db w)).
Proof.
  intros Huid Hnz Hpost Hpic Hname Hext.
  destruct w as [[un ui li vi] fl d f0 l]; simpl in *; subst.
  unfold profile_setup. run.
  rewrite bool_decide_false by done. simpl. rewrite Hpost.
  unfold user_db.add_user_info, files_item. run. rewrite Hpic. run.
  rewrite (proj2 (nonempty_true _) Hname).
  rewrite bool_decide_false by done. simpl. done.
Qed.

(** When the picture file is in the upload directory, account deletion
    removes the file and the record. *)
Lemma delete_profile_removes_picture_on_disk
    retained w uid uname flag pic data :
  s_username (session w) = Some uname →
  s_user_id (session w) = Some uid →
  s_logged_in (session w) = Some flag →
  picfile (db w) !! uid = Some pic →
  profile_uploads (fs w) !! pic = Some data →
  ∃ w', delete_profile retained w = (Ok (Redirect UIndex), w')
    ∧ picfile (db w') = delete uid (picfile (db w))
    ∧ profile_uploads (fs w') = delete pic (profile_uploads (fs w)).
Proof.
  intros Hname Huid Hflag Hpic Hfile.
  destruct w as [[un ui li vi] fl d f l]; simpl in *; subst.
  eexists. split.
  - unfold delete_profile. run.
    unfold user_db.delete_user, user_db.serve_profile_picture,
      remove_picture_if_on_disk, user_db.delete_profile_pic. run. unset.
    rewrite Hpic. simpl. rewrite Hfile. reflexivity.
  - done.
Qed.

(** *** The value normalizer *)

Lemma normalize_lookup kind_of (d : row) (k : string) :
  helper.normalize kind_of d !! k =
    (λ v, match kind_of k with
          | helper.Boolean => helper.to_bool v
          | helper.Optional => helper.to_None v
          | helper.Plain => v
          end) <$> d !! k.
Proof.
  unfold helper.normalize, helper.convert_to_None, helper.convert_to_bool.
  rewrite !map_lookup_imap. unfold helper.is_boolean, helper.is_optional.
  destruct (d !! k) as [v|]; simpl; [|done].
  by destruct (kind_of k).
Qed.

(** C9: on a field holding the string [s], the normalizer yields true
    for "true" and "on" and false for any other string when the field is
    boolean-typed, null for the empty string and for "None" when the
    field is optional, and the string itself otherwise; it neither adds
    nor drops a field. *)
Theorem normalize_by_kind kind_of (d : row) (k s : string) :
  d !! k = Some (VStr s) →
  (kind_of k = helper.Boolean → s = "true" ∨ s = "on" →
     helper.normalize kind_of d !! k = Some (VBool true))
  ∧ (kind_of k = helper.Boolean → s ≠ "true" → s ≠ "on" →
     helper.normalize kind_of d !! k = Some (VBool false))
  ∧ (kind_of k = helper.Optional → s = "" ∨ s = "None" →
     helper.normalize kind_of d !! k = Some VNone)
  ∧ (kind_of k = helper.Optional → s ≠ "" → s ≠ "None" →
     helper.normalize kind_of d !! k = Some (VStr s))
  ∧ (kind_of k = helper.Plain →
     helper.normalize kind_of d !! k = Some (VStr s))
  ∧ dom (helper.normalize kind_of d) = dom d.
Proof.
  intros Hk. rewrite normalize_lookup, Hk. simpl.
  repeat split.
  - intros -> [-> | ->]; reflexivity.
  - intros -> H1 H2. simpl. by rewrite !bool_decide_false.
  - intros -> [-> | ->]; reflexivity.
  - intros -> H1 H2. simpl. by rewrite !bool_decide_false.
  - by intros ->.
  - apply set_eq. intros j. rewrite !elem_of_dom, normalize_lookup.
    by rewrite fmap_is_Some.
Qed.

(** The mentorship checkbox of a setup form, submitted as "on". *)
Lemma normalize_by_kind_witness :
  setup_form !! "is_interested_in_mentorship" = Some (VStr "on")
  ∧ (helper.normalize mentorship_is_boolean setup_form)
      !! "is_interested_in_mentorship" = Some (VBool true).
Proof.
  split; [reflexivity|].
  apply (normalize_by_kind mentorship_is_boolean setup_form
           "is_interested_in_mentorship" "on");
    [reflexivity | reflexivity | by right].
Defined.

(** *** The scenarios, run *)

Lemma installer_disallowed : disallowed installer.
Proof.
  split; [done|]. intros e [= <-].
  apply (bool_decide_unpack _). vm_compute. exact I.
Defined.

(** C1 (the upload of [setup.exe] with a new post): the attachment is
    turned down, the error is flashed and the caller is sent back to the
    blank form, but [post_db.create_post] ran before [save_post_file]
    looked at the extension: the post table is not what it was, and the
    store holds a post nobody is shown. *)
Lemma create_post_exe_changes_store :
  disallowed installer
  ∧ files_getlist exe_upload "file[]" = [installer]
  ∧ (create_post (λ s, s) exe_upload fresh_world).1 = Ok (Redirect URequest)
  ∧ posts (db (create_post (λ s, s) exe_upload fresh_world).2)
      ≠ posts (db fresh_world)
  ∧ posts (db (create_post (λ s, s) exe_upload fresh_world).2) !! 1
      = Some (PostRow 1 (Some 1) (Some "Networking Night") None None None
                None None (Some "Bring a friend") 1)
  ∧ flashes (create_post (λ s, s) exe_upload fresh_world).2
      = [invalid_file_type].
Proof.
  split; [exact installer_disallowed|].
  split; [reflexivity|]. split; [reflexivity|].
  split; [|split; reflexivity].
  intros Heq. apply (f_equal (λ m, m !! 1)) in Heq.
  vm_compute in Heq. discriminate.
Qed.

(** The executable upload of the scenario meets the premises of
    [create_post_rejects_disallowed_attachment]. *)
Lemma create_post_rejects_disallowed_attachment_witness :
  s_user_id (session fresh_world) = Some 1
  ∧ method exe_upload = POST
  ∧ files_getlist exe_upload "file[]" = [] ++ installer :: []
  ∧ Forall (λ g, filename g = "" ∨ allowed g) []
  ∧ disallowed installer
  ∧ ∃ e w',
      (∀ pid0 w0, save_post_file (λ s, s) (Some installer) pid0 w0 = (Raise e, w0))
      ∧ create_post (λ s, s) exe_upload fresh_world = (Ok (Redirect URequest), w')
      ∧ post_files (db w') = post_files (db fresh_world) ++ []
      ∧ post_uploads (fs w') = post_uploads (fs fresh_world)
      ∧ flashes w' = flashes fresh_world ++ [] ++ [str_exn e]
      ∧ ∃ p, posts (db w') = <[1 := p]> (posts (db fresh_world))
             ∧ posted_by p = Some 1
             ∧ header p = form_get exe_upload "header".
Proof.
  split; [reflexivity|]. split; [reflexivity|]. split; [reflexivity|].
  split; [constructor|]. split; [exact installer_disallowed|].
  exact (create_post_rejects_disallowed_attachment (λ s, s) exe_upload
           fresh_world 1 [] installer [] eq_refl eq_refl eq_refl
           (Forall_nil_2 _) installer_disallowed).
Defined.

(** User 1 tries to retitle the post of user 2. *)
Lemma edit_post_refuses_non_author_witness :
  s_user_id (session two_posts_world) = Some 1
  ∧ posts (db two_posts_world) !! 2 = Some opening
  ∧ posted_by opening ≠ Some 1
  ∧ ∃ w', edit_post (λ s, s) 2 retitle_opening two_posts_world
            = (Ok (Redirect (UPost 2 (Some 1))), w')
      ∧ db w' = db two_posts_world
      ∧ fs w' = fs two_posts_world
      ∧ session w' = session two_posts_world
      ∧ flashes w' = flashes two_posts_world ++ [access_denied].
Proof.
  assert (posted_by opening ≠ Some 1) as Hother by (intros [=]).
  split; [reflexivity|]. split; [reflexivity|]. split; [exact Hother|].
  exact (edit_post_refuses_non_author (λ s, s) 2 retitle_opening
           two_posts_world 1 opening eq_refl eq_refl Hother).
Defined.


(** An accepted attachment: the post is created, the file is stored
    under the post id prefix and recorded, and the caller is sent to the
    new post. *)
Lemma pdf_upload_is_attached :
  let '(r, w) := create_post (λ s, s) pdf_upload fresh_world in
  r = Ok (Redirect (UPost 1 None))
  ∧ post_files (db w) = [(1, "1_slides.PDF")]
  ∧ post_uploads (fs w) !! "1_slides.PDF" = Some "%PDF"
  ∧ flashes w = ["File successfully uploaded."].
Proof. vm_compute. done. Qed.

(** Editing the header only, every other field resubmitted unchanged,
    reports exactly one changed field. *)
Lemma retitle_flyer_reports_header :
  let '(r, w) := edit_post (λ s, s) 1 retitle_flyer two_posts_world in
  r = Ok (Redirect (UPost 1 None))
  ∧ flashes w = ["Successfully updated header!"]
  ∧ header <$> posts (db w) !! 1 = Some (Some "Networking Morning").
Proof. vm_compute. done. Qed.

(** The search of the scenario: both posts mention networking, one in
    its header and one in its body; the newer one comes first. *)
Lemma search_networking_finds_both :
  (search_posts search_networking two_posts_world).1
  = Ok (Render (SearchPostsPage [opening; flyer] [opening; flyer] (Some 1))).
Proof. vm_compute. reflexivity. Qed.

(** C6 (the request without a file part): the author of post 1 resubmits
    the edit form unchanged, with no [input_file] part and nothing to
    delete.  No field is updated, the "No updates" test reads
    [input_file.filename] of None, and the handler ends in its catch-all
    branch: an "unexpected error" flash and a redirect to the home page,
    not the "No changes were made" report. *)
Theorem unchanged_edit_without_file_part_fails :
  edit_post (λ s, s) 1 resubmit_flyer two_posts_world =
    (Ok (Redirect UHome),
     World alice [unexpected_filename_error] (db two_posts_world)
       (fs two_posts_world) [GetPostInfo 1; EditPost 1]).
Proof.
  rewrite (unchanged_edit_without_file_part (λ s, s) 1 1 resubmit_flyer
             two_posts_world flyer); try reflexivity.
  intros [=].
Qed.

(** C7 (the post view): the view of a post id with no stored post,
    requested by a logged-in user, flashes nothing and is not answered
    with a redirect, whatever the formatting helper returns for the
    missing row; the profile view of an absent user does flash "not
    found" and redirects home. *)
Theorem post_view_of_absent_post_not_reported fmt conv :
  posts (db two_posts_world) !! 7 = None
  ∧ flashes (post fmt 7 two_posts_world).2 = []
  ∧ (∀ target, (post fmt 7 two_posts_world).1 ≠ Ok (Redirect target))
  ∧ (profile conv 7 two_posts_world).1 = Ok (Redirect UHome)
  ∧ flashes (profile conv 7 two_posts_world).2 = [profile_not_found].
Proof.
  split; [reflexivity|].
  destruct (post_absent_no_report fmt 7 two_posts_world 1 eq_refl eq_refl)
    as [Hflash Hresp].
  split; [exact Hflash|]. split; [exact Hresp|].
  by rewrite (profile_absent_goes_home conv 7 two_posts_world 1).
Qed.

(** C8: a request for [/post_file/1/2_offer.pdf] is answered with the
    bytes of [2_offer.pdf], whose attachment row belongs to post 2 and
    not to post 1. *)
Theorem post_file_serves_attachment_of_other_post :
  post_file 1 "2_offer.pdf" two_posts_world
    = (Ok (SendFile "2_offer.pdf" "offer bytes"), two_posts_world)
  ∧ ((1, "2_offer.pdf") ∉ post_files (db two_posts_world))
  ∧ ((2, "2_offer.pdf") ∈ post_files (db two_posts_world)).
Proof.
  split; [reflexivity|]. split.
  - apply (bool_decide_unpack _). vm_compute. exact I.
  - apply (bool_decide_unpack _). vm_compute. exact I.
Qed.

(** User 1 has the picture record [1.png] and no such file on disk. *)
Lemma delete_profile_keeps_record_of_missing_file_witness :
  s_username (session two_posts_world) = Some "alice"
  ∧ s_user_id (session two_posts_world) = Some 1
  ∧ s_logged_in (session two_posts_world) = Some true
  ∧ picfile (db two_posts_world) !! 1 = Some "1.png"
  ∧ profile_uploads (fs two_posts_world) !! "1.png" = None
  ∧ ∃ w', delete_profile keep_names two_posts_world = (Ok (Redirect UIndex), w')
      ∧ picfile (db w') = picfile (db two_posts_world)
      ∧ fs w' = fs two_posts_world
      ∧ (∀ r, profiles (db two_posts_world) !! 1 = Some r →
           ∃ r', profiles (db w') !! 1 = Some r'
             ∧ ∀ k v, r !! k = Some v →
                 r' !! k = Some (if keep_names k then v else VNone))
      ∧ s_username (session w') = None
      ∧ s_user_id (session w') = None
      ∧ s_logged_in (session w') = None.
Proof.
  do 5 (split; [reflexivity|]).
  exact (delete_profile_keeps_record_of_missing_file keep_names
           two_posts_world 1 "alice" true "1.png"
           eq_refl eq_refl eq_refl eq_refl eq_refl).
Defined.

(** * Further properties of the handlers *)

(** ** Frames: what handlers leave alone *)

Section ends_in.

Context (R : relation world) `{!PreOrder R}.

Lemma ends_in_ret {A} (a : A) : ends_in (mret a) R.
Proof. intros w. simpl. reflexivity. Qed.

Lemma ends_in_raise {A} e : ends_in (raise (A:=A) e) R.
Proof. intros w. simpl. reflexivity. Qed.

Lemma ends_in_lift {A} (r : result A) : ends_in (lift r) R.
Proof. intros w. simpl. reflexivity. Qed.

Lemma ends_in_get_world : ends_in get_world R.
Proof. intros w. simpl. reflexivity. Qed.

Lemma ends_in_modify f : (∀ w, R w (f w)) → ends_in (modify f) R.
Proof. intros Hf w. apply Hf. Qed.

Lemma ends_in_bind {A B} (m : M A) (f : A → M B) :
  ends_in m R → (∀ a, ends_in (f a) R) → ends_in (m ≫= f) R.
Proof.
  intros Hm Hf w. unfold mbind, M_bind. specialize (Hm w).
  destruct (m w) as [[a|e] w1]; simpl in *; [|done].
  etrans; [exact Hm | apply Hf].
Qed.

Lemma ends_in_try {A} (body : M A) handler :
  ends_in body R → (∀ e, ends_in (handler e) R) →
  ends_in (try_except body handler) R.
Proof.
  intros Hm Hh w. unfold try_except. specialize (Hm w).
  destruct (body w) as [[a|e] w1]; simpl in *; [done|].
  etrans; [exact Hm | apply Hh].
Qed.

Lemma ends_in_for_each {A} (l : list A) body :
  (∀ x, ends_in (body x) R) → ends_in (for_each l body) R.
Proof.
  intros Hb. induction l as [|x l IH]; simpl.
  - apply ends_in_ret.
  - apply ends_in_bind; auto.
Qed.

End ends_in.

Global Instance same_session_preorder : PreOrder same_session.
Proof. split; [by intros w | intros w1 w2 w3; unfold same_session; congruence]. Qed.

Global Instance same_data_preorder : PreOrder same_data.
Proof.
  split; [by intros w |].
  intros w1 w2 w3 [? ?] [? ?]. split; congruence.
Qed.

Ltac order_goal :=
  lazymatch goal with
  | |- PreOrder _ => apply _
  | _ => idtac
  end.

(** Takes a computation apart along its binds, branches and loops. *)
Ltac frame_step :=
  first
    [ apply ends_in_ret; order_goal; fail
    | apply ends_in_raise; order_goal; fail
    | apply ends_in_lift; order_goal; fail
    | apply ends_in_get_world; order_goal; fail
    | apply ends_in_bind; order_goal; [| intros ? ]
    | apply ends_in_try; order_goal; [| intros ? ]
    | apply ends_in_for_each; order_goal; intros ?
    | apply ends_in_modify; order_goal; intros []; done
    | match goal with
      | |- ends_in (match ?x with _ => _ end) _ => destruct x
      | |- ends_in (if ?b then _ else _) _ => destruct b
      end
    | progress cbv zeta
    | progress unfold is_logged_in, session_get_user_id, session_item_user_id,
        flash, log_call, db_read, db_write, url_for_uid, send_from_directory,
        dict_item, files_item ].

Ltac frame := repeat frame_step.

Ltac open_db :=
  unfold user_db.get_profile, user_db.add_user_info, user_db.update_profile,
    user_db.serve_profile_picture, user_db.upload_profile_pic,
    user_db.delete_profile_pic, user_db.delete_user,
    post_db.get_latest_posts, post_db.get_posts_by_user,
    post_db.get_user_name_by_uid, post_db.get_post_info,
    post_db.serve_post_file, post_db.create_post, post_db.upload_post_file,
    post_db.delete_post_file, post_db.delete_post, post_db.edit_post,
    post_db.search_posts.

Ltac open_app :=
  unfold save_post_file, delete_post_file, nothing_changed,
    render_update_form, remove_picture_if_on_disk, save_profile_upload.

Ltac frame_all :=
  repeat first [ frame_step | progress open_db | progress open_app ].

(** X1: Each of the twelve handlers [index], [home], [profile_pic],
    [post_file], [profile], [profile_setup], [update_profile], [post],
    [create_post], [edit_post], [search_posts] and [mentorship] leaves
    the session keys [username], [user_id], [logged_in] and [visits] as
    it found them, whatever the request and whatever it finds in the
    store: nobody is logged out or turned into another user by viewing,
    searching, posting, editing or uploading.  ([signup], [login],
    [logout] and [delete_profile] are the handlers that write these
    keys.) *)
Theorem twelve_handlers_keep_the_login_keys sf kind conv fmt fmts req :
  ends_in index same_session
  ∧ ends_in (home fmts) same_session
  ∧ (∀ uid, ends_in (profile_pic uid) same_session)
  ∧ (∀ pid name, ends_in (post_file pid name) same_session)
  ∧ (∀ uid, ends_in (profile conv uid) same_session)
  ∧ ends_in (profile_setup sf kind req) same_session
  ∧ ends_in (update_profile sf kind req) same_session
  ∧ (∀ pid, ends_in (post fmt pid) same_session)
  ∧ ends_in (create_post sf req) same_session
  ∧ (∀ pid, ends_in (edit_post sf pid req) same_session)
  ∧ ends_in (search_posts req) same_session
  ∧ ends_in (mentorship req) same_session.
Proof.
  repeat match goal with |- _ ∧ _ => split end; intros;
    unfold index, home, profile_pic, post_file, profile, profile_setup,
      update_profile, post, create_post, edit_post, search_posts, mentorship;
    frame_all.
Qed.

(** X2: Requests that only read: no handler answers a GET by writing to the
    store or to an upload directory, and the handlers without a form
    branch ([index], [home], [profile_pic], [post_file], [profile],
    [post], [search_posts]) and [mentorship] never write at all. *)
Theorem get_requests_leave_data_alone sf kind conv fmt fmts req :
  method req = GET →
  ends_in index same_data
  ∧ ends_in (home fmts) same_data
  ∧ (∀ uid, ends_in (profile_pic uid) same_data)
  ∧ (∀ pid name, ends_in (post_file pid name) same_data)
  ∧ (∀ uid, ends_in (profile conv uid) same_data)
  ∧ (∀ pid, ends_in (post fmt pid) same_data)
  ∧ (∀ any, ends_in (search_posts any) same_data)
  ∧ (∀ any, ends_in (mentorship any) same_data)
  ∧ ends_in (profile_setup sf kind req) same_data
  ∧ ends_in (update_profile sf kind req) same_data
  ∧ ends_in (create_post sf req) same_data
  ∧ (∀ pid, ends_in (edit_post sf pid req) same_data).
Proof.
  intros Hget.
  repeat match goal with |- _ ∧ _ => split end; intros;
    unfold index, home, profile_pic, post_file, profile, profile_setup,
      update_profile, post, create_post, edit_post, search_posts, mentorship;
    rewrite ?Hget; frame_all.
Qed.

Lemma get_requests_leave_data_alone_witness :
  method search_networking = GET
  ∧ ends_in index same_data
  ∧ ends_in (home show_posts) same_data
  ∧ (∀ uid, ends_in (profile_pic uid) same_data)
  ∧ (∀ pid name, ends_in (post_file pid name) same_data)
  ∧ (∀ uid, ends_in (profile show_row uid) same_data)
  ∧ (∀ pid, ends_in (post show_post pid) same_data)
  ∧ (∀ any, ends_in (search_posts any) same_data)
  ∧ (∀ any, ends_in (mentorship any) same_data)
  ∧ ends_in (profile_setup keep_name mentorship_is_boolean search_networking) same_data
  ∧ ends_in (update_profile keep_name mentorship_is_boolean search_networking) same_data
  ∧ ends_in (create_post keep_name search_networking) same_data
  ∧ (∀ pid, ends_in (edit_post keep_name pid search_networking) same_data).
Proof.
  split; [reflexivity|].
  exact (get_requests_leave_data_alone keep_name mentorship_is_boolean show_row
           show_post show_posts search_networking eq_refl).
Defined.

(** ** The login gate, handler by handler *)

(** X3: Without a [user_id] in the session, every handler that calls
    [is_logged_in] answers with the redirect to the welcome page and the
    "session has expired" flash and does nothing else; [profile_setup],
    which tests the key itself, does the same with its own message. *)
Theorem gate_turns_anonymous_requests_away sf kind conv fmt fmts req w :
  s_user_id (session w) = None →
  home fmts w = turned_away w
  ∧ (∀ uid, profile_pic uid w = turned_away w)
  ∧ (∀ pid name, post_file pid name w = turned_away w)
  ∧ logout w = turned_away w
  ∧ (∀ uid, profile conv uid w = turned_away w)
  ∧ update_profile sf kind req w = turned_away w
  ∧ (∀ pid, post fmt pid w = turned_away w)
  ∧ create_post sf req w = turned_away w
  ∧ (∀ pid, edit_post sf pid req w = turned_away w)
  ∧ search_posts req w = turned_away w
  ∧ mentorship req w = turned_away w
  ∧ profile_setup sf kind req w =
      (Ok (Redirect UIndex), set_flashes (λ fl, fl ++ ["User not logged in."]) w).
Proof.
  intros Hanon.
  repeat split; intros;
    auto using gate_home, gate_profile_pic, gate_post_file, gate_logout,
      gate_profile, gate_update_profile, gate_post, gate_create_post,
      gate_edit_post, gate_search_posts, gate_mentorship, gate_profile_setup.
Qed.

Lemma gate_turns_anonymous_requests_away_witness :
  s_user_id (session visitor_world) = None
  ∧ home show_posts visitor_world = turned_away visitor_world
  ∧ (∀ uid, profile_pic uid visitor_world = turned_away visitor_world)
  ∧ (∀ pid name, post_file pid name visitor_world = turned_away visitor_world)
  ∧ logout visitor_world = turned_away visitor_world
  ∧ (∀ uid, profile show_row uid visitor_world = turned_away visitor_world)
  ∧ update_profile keep_name mentorship_is_boolean retitle_flyer visitor_world
      = turned_away visitor_world
  ∧ (∀ pid, post show_post pid visitor_world = turned_away visitor_world)
  ∧ create_post keep_name retitle_flyer visitor_world = turned_away visitor_world
  ∧ (∀ pid, edit_post keep_name pid retitle_flyer visitor_world
            = turned_away visitor_world)
  ∧ search_posts retitle_flyer visitor_world = turned_away visitor_world
  ∧ mentorship retitle_flyer visitor_world = turned_away visitor_world
  ∧ profile_setup keep_name mentorship_is_boolean retitle_flyer visitor_world =
      (Ok (Redirect UIndex),
       set_flashes (λ fl, fl ++ ["User not logged in."]) visitor_world).
Proof.
  split; [reflexivity|].
  exact (gate_turns_anonymous_requests_away keep_name mentorship_is_boolean
           show_row show_post show_posts retitle_flyer visitor_world eq_refl).
Defined.

(** ** Leaving: logout and account deletion *)

(** X4: [logout] of a session that holds the three login keys pops exactly
    those, keeps the visit counter, flashes and redirects to the welcome
    page; the store and the upload directories are not touched, and the
    session it leaves no longer passes the gate. *)
Theorem logout_pops_the_login_keys w :
  has_login_keys (session w) →
  logout w =
    (Ok (Redirect UIndex),
     World (Session None None None (s_visits (session w)))
       (flashes w ++ ["You are logged out"]) (db w) (fs w) (db_log w))
  ∧ ∀ req, search_posts req (logout w).2 = turned_away (logout w).2.
Proof.
  intros ([un Hun] & [ui Hui] & [li Hli]).
  destruct w as [[? ? ? vi] fl d f l]; simpl in *; subst.
  split; [reflexivity|]. intros req. reflexivity.
Qed.

Lemma logout_pops_the_login_keys_witness :
  has_login_keys (session two_posts_world)
  ∧ logout two_posts_world =
      (Ok (Redirect UIndex),
       World (Session None None None (s_visits (session two_posts_world)))
         (flashes two_posts_world ++ ["You are logged out"])
         (db two_posts_world) (fs two_posts_world) (db_log two_posts_world))
    ∧ ∀ req, search_posts req (logout two_posts_world).2
             = turned_away (logout two_posts_world).2.
Proof.
  assert (has_login_keys (session two_posts_world)) as Hkeys
    by (repeat split; eexists; reflexivity).
  split; [exact Hkeys|].
  exact (logout_pops_the_login_keys two_posts_world Hkeys).
Defined.

(** X5: [delete_profile] has two outcomes.  When the session holds the three
    login keys it answers with the redirect to the welcome page;
    otherwise a [session.pop] fails, and the recovery branch, which asks
    for the URL of [profile] without a user id, ends in a build error:
    the "back to the profile page" redirect of the docstring is never
    sent. *)
Theorem delete_profile_outcomes retained w :
  ((delete_profile retained w).1 = Ok (Redirect UIndex)
     ↔ has_login_keys (session w))
  ∧ ((delete_profile retained w).1 = Raise (BuildError "profile")
     ↔ ¬ has_login_keys (session w))
  ∧ (∀ target, (delete_profile retained w).1 = Ok (Redirect target)
       → target = UIndex).
Proof.
  destruct w as [[un ui li vi] fl d f l].
  unfold has_login_keys. simpl.
  assert (∀ A (o : option A), is_Some o ↔ o ≠ None) as Hs
    by (intros; rewrite <- not_eq_None_Some; tauto).
  unfold delete_profile. run.
  unfold user_db.delete_user, user_db.serve_profile_picture,
    remove_picture_if_on_disk, user_db.delete_profile_pic. run. unset.
  destruct ui as [u|]; simpl;
    [destruct (picfile d !! u) as [name|]; simpl;
       [destruct (profile_uploads f !! name); simpl|]|];
    destruct un, li; simpl; rewrite !Hs;
    (split; [|split]; [| |intros target]; intuition congruence).
Qed.

(** ** Attachments on disk *)

Lemma after_last_none c s :
  pystr.after_last c s = None ↔ ¬ substring_of (String c "") s.
Proof.
  unfold substring_of. induction s as [|a s IH]; simpl.
  - split; [|done]. intros _ ([|??] & after & Heq); discriminate.
  - destruct (pystr.after_last c s) as [t|].
    + split; [done|]. intros Hno. exfalso.
      assert (¬ ∃ before after, s = before +:+ String c "" +:+ after) as Hs.
      { intros (before & after & ->). apply Hno.
        by exists (String a before), after. }
      by apply IH in Hs.
    + destruct (Ascii.eqb_spec a c) as [->|Hne].
      * split; [done|]. intros Hno. exfalso. apply Hno. by exists "", s.
      * split; [|done]. intros _ ([|b before] & after & Heq); simpl in Heq.
        -- injection Heq as -> _. done.
        -- injection Heq as -> ->.
           by apply (proj1 IH eq_refl); exists before, after.
Qed.

Lemma after_last_app c stem ext :
  pystr.after_last c ext = None →
  pystr.after_last c (stem +:+ String c ext) = Some ext.
Proof.
  intros Hext. induction stem as [|a stem IH]; simpl.
  - by rewrite Hext, Ascii.eqb_refl.
  - by rewrite IH.
Qed.

Lemma extension_of stem ext :
  dotless ext → pystr.rsplit_dot_1 (stem +:+ "." +:+ ext) = Some ext.
Proof.
  intros Hext. unfold pystr.rsplit_dot_1.
  apply (after_last_app "." stem ext). by apply after_last_none.
Qed.

Lemma named_with_extension f stem ext :
  filename f = stem +:+ "." +:+ ext → filename f ≠ "".
Proof. intros -> Heq. by destruct stem. Qed.

(** X6: [save_post_file] judges a file by the text after the last dot of
    its name, whatever its case: with an allowed extension there the
    file is written under the post id prefix and its stored name
    returned, with any other the call raises the "Invalid file type"
    error and writes nothing.  Dots further left do not count. *)
Theorem save_post_file_judges_last_extension sf f pid w stem ext :
  filename f = stem +:+ "." +:+ ext →
  dotless ext →
  (pystr.lower ext ∈ ALLOWED_EXTENSIONS →
     save_post_file sf (Some f) pid w =
       (Ok (Some (sf (pretty pid +:+ "_" +:+ filename f))),
        set_fs (with_post_uploads
                  (λ d, <[sf (pretty pid +:+ "_" +:+ filename f) := content f]> d)) w))
  ∧ (pystr.lower ext ∉ ALLOWED_EXTENSIONS →
     save_post_file sf (Some f) pid w = (Raise (ValueError invalid_file_type), w)).
Proof.
  intros Hname Hext.
  pose proof (named_with_extension f stem ext Hname) as Hnamed.
  pose proof (extension_of stem ext Hext) as Hsplit. rewrite <- Hname in Hsplit.
  split; intros Hin.
  - apply save_post_file_accepts. split; [done|]. eauto.
  - unfold save_post_file.
    rewrite (proj2 (nonempty_true _) Hnamed), Hsplit. run.
    by rewrite bool_decide_false.
Qed.

Lemma pdf_is_dotless : dotless "PDF".
Proof. by apply (after_last_none "." "PDF"). Defined.

Lemma save_post_file_judges_last_extension_witness :
  filename final_report = "report.final" +:+ "." +:+ "PDF"
  ∧ dotless "PDF"
  ∧ (pystr.lower "PDF" ∈ ALLOWED_EXTENSIONS →
       save_post_file keep_name (Some final_report) 1 fresh_world =
         (Ok (Some (keep_name (pretty 1 +:+ "_" +:+ filename final_report))),
          set_fs (with_post_uploads
                    (λ d, <[keep_name (pretty 1 +:+ "_" +:+ filename final_report)
                              := content final_report]> d)) fresh_world))
  ∧ (pystr.lower "PDF" ∉ ALLOWED_EXTENSIONS →
       save_post_file keep_name (Some final_report) 1 fresh_world
         = (Raise (ValueError invalid_file_type), fresh_world)).
Proof.
  split; [reflexivity|]. split; [exact pdf_is_dotless|].
  exact (save_post_file_judges_last_extension keep_name final_report 1
           fresh_world "report.final" "PDF" eq_refl pdf_is_dotless).
Defined.

(** X7: A named file without any dot in its name has no extension to
    judge: [save_post_file] fails on the missing list element, before
    the extension test and before anything is written. *)
Theorem save_post_file_needs_a_dot sf f pid w :
  filename f ≠ "" →
  dotless (filename f) →
  save_post_file sf (Some f) pid w = (Raise IndexError, w).
Proof.
  intros Hnamed Hdot. unfold save_post_file.
  rewrite (proj2 (nonempty_true _) Hnamed).
  unfold pystr.rsplit_dot_1.
  by rewrite (proj2 (after_last_none "." (filename f)) Hdot).
Qed.

Lemma readme_is_dotless : dotless (filename readme).
Proof. by apply (after_last_none "." "README"). Defined.

Lemma save_post_file_needs_a_dot_witness :
  filename readme ≠ ""
  ∧ dotless (filename readme)
  ∧ save_post_file keep_name (Some readme) 1 fresh_world
      = (Raise IndexError, fresh_world).
Proof.
  assert (filename readme ≠ "") as Hnamed by (intros [=]).
  split; [exact Hnamed|]. split; [exact readme_is_dotless|].
  exact (save_post_file_needs_a_dot keep_name readme 1 fresh_world
           Hnamed readme_is_dotless).
Defined.

(** X8: Saving an attachment and asking for it by the name that was
    returned gives back the bytes that were uploaded, under any post id
    in the URL. *)
Theorem saved_attachment_is_served sf f pid w uid :
  s_user_id (session w) = Some uid →
  allowed f →
  ∃ name w1,
    save_post_file sf (Some f) pid w = (Ok (Some name), w1)
    ∧ ∀ any_pid, post_file any_pid name w1 = (Ok (SendFile name (content f)), w1).
Proof.
  intros Huid Hf. do 2 eexists. split; [by apply save_post_file_accepts|].
  intros any_pid. destruct w as [[un ui li vi] fl d fs0 l]; simpl in *; subst.
  unfold post_file. run. unset. by rewrite lookup_insert_eq.
Qed.

Lemma final_report_allowed : allowed final_report.
Proof.
  split; [intros [=]|]. exists "PDF". split; [reflexivity|].
  apply (bool_decide_unpack _). vm_compute. exact I.
Defined.

Lemma saved_attachment_is_served_witness :
  s_user_id (session fresh_world) = Some 1
  ∧ allowed final_report
  ∧ ∃ name w1,
      save_post_file keep_name (Some final_report) 1 fresh_world
        = (Ok (Some name), w1)
      ∧ ∀ any_pid, post_file any_pid name w1
                   = (Ok (SendFile name (content final_report)), w1).
Proof.
  split; [reflexivity|]. split; [exact final_report_allowed|].
  exact (saved_attachment_is_served keep_name final_report 1 fresh_world 1
           eq_refl final_report_allowed).
Defined.

(** X9: Saving an attachment under a name that was free and deleting it
    again by the returned name leaves the world exactly as it was. *)
Theorem save_then_delete_restores sf f pid w :
  allowed f →
  post_uploads (fs w) !! sf (pretty pid +:+ "_" +:+ filename f) = None →
  ∃ name w1,
    save_post_file sf (Some f) pid w = (Ok (Some name), w1)
    ∧ delete_post_file name w1 = (Ok (), w).
Proof.
  intros Hf Hfree. do 2 eexists. split; [by apply save_post_file_accepts|].
  destruct w as [s fl d [pu po] l]; simpl in *.
  unfold delete_post_file, stored_name. run. unset.
  rewrite lookup_insert_eq. simpl. by rewrite delete_insert_id.
Qed.

Lemma save_then_delete_restores_witness :
  allowed final_report
  ∧ post_uploads (fs fresh_world)
      !! keep_name (pretty 1 +:+ "_" +:+ filename final_report) = None
  ∧ ∃ name w1,
      save_post_file keep_name (Some final_report) 1 fresh_world
        = (Ok (Some name), w1)
      ∧ delete_post_file name w1 = (Ok (), fresh_world).
Proof.
  split; [exact final_report_allowed|]. split; [reflexivity|].
  exact (save_then_delete_restores keep_name final_report 1 fresh_world
           final_report_allowed eq_refl).
Defined.

(** ** Creating posts *)

Lemma upload_loop_completes sf pid files w :
  Forall (λ g, filename g = "" ∨ allowed g) files →
  for_each files (attach_one sf pid) w
  = (Ok (), foldl (attached sf pid) w (named files)).
Proof.
  intros Hfiles. revert w.
  induction Hfiles as [|g files Hg _ IH]; intros w; simpl; [done|].
  run. unfold named. rewrite filter_cons. destruct Hg as [Hg|Hg].
  - rewrite attach_one_unnamed by done.
    rewrite decide_False by auto. apply IH.
  - rewrite attach_one_allowed by done.
    rewrite decide_True by apply Hg. simpl. apply IH.
Qed.

Lemma create_post_runs sf req w uid :
  s_user_id (session w) = Some uid →
  method req = POST →
  Forall (λ g, filename g = "" ∨ allowed g) (files_getlist req "file[]") →
  create_post sf req w =
    (Ok (Redirect (UPost (next_post_id (db w)) None)),
     foldl (attached sf (next_post_id (db w))) (with_new_post req w)
       (named (files_getlist req "file[]"))).
Proof.
  intros Huid Hpost Hfiles.
  pose proof (upload_loop_completes sf (next_post_id (db w)) _
                (with_new_post req w) Hfiles) as Hloop.
  destruct w as [[un ui li vi] fl d fs0 l]; simpl in *; subst.
  unfold create_post. run. rewrite Hpost.
  unfold post_db.create_post. run. unset.
  unfold with_new_post in Hloop. simpl in Hloop.
  destruct (files_getlist req "file[]") as [|g gs] eqn:Hlist; [done|].
  change (for_each (g :: gs) _ ?w1)
    with (for_each (g :: gs) (attach_one sf (next_post_id d)) w1).
  rewrite Hloop. reflexivity.
Qed.

(** X10: A new post whose attachments are all unnamed or allowed: the post
    row carries the session's user as author and the form values field
    by field, every named file is stored under the post id prefix and
    recorded in upload order with one flash each, unnamed files are
    skipped, and the caller is sent to the new post. *)
Theorem create_post_attaches_every_file sf req w uid :
  s_user_id (session w) = Some uid →
  method req = POST →
  Forall (λ g, filename g = "" ∨ allowed g) (files_getlist req "file[]") →
  let pid := next_post_id (db w) in
  let kept := named (files_getlist req "file[]") in
  let disk_name := λ g, sf (pretty pid +:+ "_" +:+ filename g) in
  ∃ w', create_post sf req w = (Ok (Redirect (UPost pid None)), w')
    ∧ posts (db w')
        = <[pid := PostRow pid (Some uid) (form_get req "header")
                     (form_get req "post_type") (form_get req "host_name")
                     (form_get req "target_audience") (form_get req "job_role")
                     (form_get req "job_level") (form_get req "post_body") pid]>
            (posts (db w))
    ∧ post_files (db w')
        = post_files (db w) ++ ((λ g, (pid, disk_name g)) <$> kept)
    ∧ post_uploads (fs w')
        = foldl (λ d g, <[disk_name g := content g]> d) (post_uploads (fs w)) kept
    ∧ flashes w'
        = flashes w ++ replicate (length kept) "File successfully uploaded."
    ∧ session w' = session w.
Proof.
  intros Huid Hpost Hfiles pid kept disk_name.
  eexists. split; [by eapply create_post_runs|].
  rewrite attached_all_posts, attached_all_post_files, attached_all_uploads,
    attached_all_flashes, attached_all_session.
  unfold with_new_post. simpl. by rewrite Huid.
Qed.

Lemma pdf_upload_files_fine :
  Forall (λ g, filename g = "" ∨ allowed g) (files_getlist pdf_upload "file[]").
Proof.
  assert (files_getlist pdf_upload "file[]" = [FileStorage "slides.PDF" "%PDF"])
    as -> by reflexivity.
  apply Forall_cons_2; [|apply Forall_nil_2].
  right. split; [intros [=]|].
  exists "PDF". split; [reflexivity|].
  apply (bool_decide_unpack _). vm_compute. exact I.
Defined.

Lemma create_post_attaches_every_file_witness :
  s_user_id (session fresh_world) = Some 1
  ∧ method pdf_upload = POST
  ∧ Forall (λ g, filename g = "" ∨ allowed g) (files_getlist pdf_upload "file[]")
  ∧ ∃ w', create_post keep_name pdf_upload fresh_world
            = (Ok (Redirect (UPost 1 None)), w')
      ∧ posts (db w')
          = <[1 := PostRow 1 (Some 1) (form_get pdf_upload "header")
                     (form_get pdf_upload "post_type")
                     (form_get pdf_upload "host_name")
                     (form_get pdf_upload "target_audience")
                     (form_get pdf_upload "job_role")
                     (form_get pdf_upload "job_level")
                     (form_get pdf_upload "post_body") 1]>
              (posts (db fresh_world))
      ∧ post_files (db w')
          = post_files (db fresh_world)
            ++ ((λ g, (1, keep_name (pretty 1 +:+ "_" +:+ filename g)))
                  <$> named (files_getlist pdf_upload "file[]"))
      ∧ post_uploads (fs w')
          = foldl (λ d g, <[keep_name (pretty 1 +:+ "_" +:+ filename g)
                              := content g]> d)
              (post_uploads (fs fresh_world))
              (named (files_getlist pdf_upload "file[]"))
      ∧ flashes w'
          = flashes fresh_world
            ++ replicate (length (named (files_getlist pdf_upload "file[]")))
                 "File successfully uploaded."
      ∧ session w' = session fresh_world.
Proof.
  split; [reflexivity|]. split; [reflexivity|].
  split; [exact pdf_upload_files_fine|].
  exact (create_post_attaches_every_file keep_name pdf_upload fresh_world 1
           eq_refl eq_refl pdf_upload_files_fine).
Defined.

Lemma edit_form_for_author sf pid req w uid info :
  s_user_id (session w) = Some uid →
  posts (db w) !! pid = Some info →
  posted_by info = Some uid →
  method req = GET →
  edit_post sf pid req w =
    (Ok (Render (PostEdit pid info
           (file_links pid (filter (λ r, r.1 = pid) (post_files (db w))).*2)
           (Some uid))),
     set_db_log (λ l, l ++ [GetPostInfo pid; ServePostFile pid]) w).
Proof.
  intros Huid Hinfo Hown Hget.
  destruct w as [[un ui li vi] fl d fs0 l]; simpl in *; subst.
  unfold edit_post. run. unfold post_db.get_post_info. run. unset.
  rewrite Hinfo, Hown. rewrite bool_decide_true by done. simpl.
  rewrite Hget. unfold post_db.serve_post_file. run. unset.
  by rewrite <- (assoc_L (++)).
Qed.

(** X11: Whoever creates a post passes the author check on it: after a
    successful [create_post], a GET of the edit route for the new id in
    the same session renders the edit form with the submitted header and
    the creator as author, and writes nothing. *)
Theorem creator_can_open_the_edit_form sf req w uid :
  s_user_id (session w) = Some uid →
  method req = POST →
  Forall (λ g, filename g = "" ∨ allowed g) (files_getlist req "file[]") →
  let pid := next_post_id (db w) in
  let w1 := (create_post sf req w).2 in
  ∃ info links w2,
    edit_post sf pid open_form w1
      = (Ok (Render (PostEdit pid info links (Some uid))), w2)
    ∧ posted_by info = Some uid
    ∧ header info = form_get req "header"
    ∧ post_body info = form_get req "post_body"
    ∧ same_data w1 w2.
Proof.
  intros Huid Hpost Hfiles pid w1.
  unfold w1. rewrite (create_post_runs sf req w uid) by done. simpl.
  do 3 eexists. split.
  - apply (edit_form_for_author sf pid open_form _ uid).
    + by rewrite attached_all_session.
    + rewrite attached_all_posts. unfold with_new_post. simpl.
      apply lookup_insert_eq.
    + simpl. done.
    + done.
  - simpl. rewrite Huid. repeat split; try done.
Qed.

Lemma creator_can_open_the_edit_form_witness :
  s_user_id (session fresh_world) = Some 1
  ∧ method pdf_upload = POST
  ∧ Forall (λ g, filename g = "" ∨ allowed g) (files_getlist pdf_upload "file[]")
  ∧ ∃ info links w2,
      edit_post keep_name 1 open_form
        (create_post keep_name pdf_upload fresh_world).2
        = (Ok (Render (PostEdit 1 info links (Some 1))), w2)
      ∧ posted_by info = Some 1
      ∧ header info = form_get pdf_upload "header"
      ∧ post_body info = form_get pdf_upload "post_body"
      ∧ same_data (create_post keep_name pdf_upload fresh_world).2 w2.
Proof.
  split; [reflexivity|]. split; [reflexivity|].
  split; [exact pdf_upload_files_fine|].
  exact (creator_can_open_the_edit_form keep_name pdf_upload fresh_world 1
           eq_refl eq_refl pdf_upload_files_fine).
Defined.

(** ** Editing posts *)

Lemma bind_ok {A B} (m : M A) (f : A → M B) w a w1 :
  m w = (Ok a, w1) → (m ≫= f) w = f a w1.
Proof. intros Hm. unfold mbind, M_bind. by rewrite Hm. Qed.

Lemma bind_raise {A B} (m : M A) (f : A → M B) w e w1 :
  m w = (Raise e, w1) → (m ≫= f) w = (Raise e, w1).
Proof. intros Hm. unfold mbind, M_bind. by rewrite Hm. Qed.

Lemma try_ok {A} (m : M A) h w a w1 :
  m w = (Ok a, w1) → try_except m h w = (Ok a, w1).
Proof. intros Hm. unfold try_except. by rewrite Hm. Qed.

Lemma try_raise {A} (m : M A) h w e w1 :
  m w = (Raise e, w1) → try_except m h w = h e w1.
Proof. intros Hm. unfold try_except. by rewrite Hm. Qed.

(** X12: An edit of a post id that is not stored, by any logged-in user and
    with any method, fails on [post_info.get] before the author check:
    the request ends in an unhandled error, nothing is flashed and
    nothing is written. *)
Theorem edit_post_of_missing_post_fails sf pid req w uid :
  s_user_id (session w) = Some uid →
  posts (db w) !! pid = None →
  edit_post sf pid req w =
    (Raise (AttributeError "'NoneType' object has no attribute 'get'"),
     set_db_log (λ l, l ++ [GetPostInfo pid]) w).
Proof.
  intros Huid Hnone.
  destruct w as [[un ui li vi] fl d fs0 l]; simpl in *; subst.
  unfold edit_post. run. unfold post_db.get_post_info. run. unset.
  by rewrite Hnone.
Qed.

Lemma edit_post_of_missing_post_fails_witness :
  s_user_id (session two_posts_world) = Some 1
  ∧ posts (db two_posts_world) !! 7 = None
  ∧ edit_post keep_name 7 retitle_flyer two_posts_world =
      (Raise (AttributeError "'NoneType' object has no attribute 'get'"),
       set_db_log (λ l, l ++ [GetPostInfo 7]) two_posts_world).
Proof.
  split; [reflexivity|]. split; [reflexivity|].
  exact (edit_post_of_missing_post_fails keep_name 7 retitle_flyer
           two_posts_world 1 eq_refl eq_refl).
Defined.

(** The update branch, as the pieces above. *)
Lemma edit_post_update_branch sf pid req w uid info :
  s_user_id (session w) = Some uid →
  posts (db w) !! pid = Some info →
  posted_by info = Some uid →
  method req = POST →
  form_get req "submit" ≠ Some "Delete Entire Post" →
  edit_post sf pid req w =
    try_except (update_post sf pid req info) unexpected_error
      (set_db_log (λ l, l ++ [GetPostInfo pid]) w).
Proof.
  intros Huid Hinfo Hown Hpost Hsub.
  destruct w as [[un ui li vi] fl d fs0 l]; simpl in *; subst.
  unfold edit_post.
  unfold mbind at 1. unfold M_bind. unfold is_logged_in. run.
  unfold post_db.get_post_info. run. unset. rewrite Hinfo, Hown.
  rewrite bool_decide_true by done. cbn [negb]. rewrite Hpost.
  rewrite bool_decide_false by done.
  reflexivity.
Qed.

Global Instance same_attachments_preorder : PreOrder same_attachments.
Proof.
  split; [by intros w |].
  intros w1 w2 w3 [? ?] [? ?]. split; congruence.
Qed.

Lemma bind_after {A B} (m : M A) (f : A → M B) (R : relation world) w a w1 :
  m w = (Ok a, w1) → ends_in (f a) R → R w1 ((m ≫= f) w).2.
Proof. intros Hm Hf. rewrite (bind_ok _ _ _ _ _ Hm). apply Hf. Qed.

Lemma try_after {A} (m : M A) h (R : relation world) `{!PreOrder R} w w1 :
  R w1 (m w).2 → (∀ e, ends_in (h e) R) → R w1 (try_except m h w).2.
Proof.
  intros Hm Hh. unfold try_except.
  destruct (m w) as [[a|e] w2]; simpl in *; [done|].
  etrans; [exact Hm | apply Hh].
Qed.

Lemma flash_loop {A} (l : list A) (g : A → string) w :
  for_each l (λ x, flash (g x)) w
  = (Ok (), set_flashes (λ fl, fl ++ (g <$> l)) w).
Proof.
  revert w. induction l as [|x l IH]; intros w; simpl.
  - destruct w. unfold set_flashes. simpl. by rewrite (right_id_L [] (++)).
  - run. rewrite IH. destruct w. unfold set_flashes. simpl.
    by rewrite <- (assoc_L (++)).
Qed.

Lemma unchanged_field field stored input :
  post_db.changed field stored input = [] → stored = input.
Proof. unfold post_db.changed. by case_decide. Qed.

(** What [post_db.edit_post] returns and leaves behind: the fields that
    differ, and a row that holds the submitted values, whether any of
    them differed or not. *)
Lemma edit_post_db_effect pid info h t hn ta jr jl b w :
  posts (db w) !! pid = Some info →
  ∃ w2,
    post_db.edit_post pid info h t hn ta jr jl b w
      = (Ok (post_db.changed "header" (header info) h ++
             post_db.changed "post_type" (post_type info) t ++
             post_db.changed "host_name" (host_name info) hn ++
             post_db.changed "target_audience" (target_audience info) ta ++
             post_db.changed "job_role" (job_role info) jr ++
             post_db.changed "job_level" (job_level info) jl ++
             post_db.changed "post_body" (post_body info) b), w2)
    ∧ session w2 = session w
    ∧ flashes w2 = flashes w
    ∧ fs w2 = fs w
    ∧ post_files (db w2) = post_files (db w)
    ∧ posts (db w2) !! pid
        = Some (PostRow (post_id info) (posted_by info) h t hn ta jr jl b
                  (created info))
    ∧ ∀ other, other ≠ pid → posts (db w2) !! other = posts (db w) !! other.
Proof.
  intros Hinfo. unfold post_db.edit_post. run.
  case_bool_decide as Hupd; simpl; eexists; (split; [reflexivity|]).
  - repeat apply app_eq_nil in Hupd as [?%unchanged_field Hupd].
    apply unchanged_field in Hupd.
    destruct w as [s fl d f l], info; simpl in *; subst.
    repeat split; done.
  - destruct w as [s fl d f l]. unset. repeat split; try done.
    + by rewrite lookup_alter_eq, Hinfo.
    + intros other Hother. by rewrite lookup_alter_ne.
Qed.

(** A disallowed file is turned down with [rejection], whatever the post
    and the world. *)
Lemma save_post_file_raises_rejection sf f :
  disallowed f →
  ∀ pid w, save_post_file sf (Some f) pid w = (Raise (rejection f), w).
Proof.
  intros [Hname Hext] pid w. unfold save_post_file, rejection.
  apply nonempty_true in Hname. rewrite Hname. run.
  destruct (pystr.rsplit_dot_1 (filename f)) as [e|] eqn:He; simpl; [|done].
  by rewrite bool_decide_false by auto.
Qed.

(** X13: An update whose uploaded file is rejected: the field edits are
    already in the store when the file is looked at.  The handler
    flashes one "Successfully updated" note for every field that
    differed, in form order, and then, last, the text of the error that
    [save_post_file] raised for the file; it redirects back to the edit
    form.  The post row holds the submitted values, and the attachment
    rows and upload directories are as they were. *)
Theorem edit_post_applies_edits_before_rejecting_upload
    sf pid req w uid info f :
  s_user_id (session w) = Some uid →
  posts (db w) !! pid = Some info →
  posted_by info = Some uid →
  method req = POST →
  form_get req "submit" ≠ Some "Delete Entire Post" →
  form_getlist req "delete_files[]" = [] →
  files_get req "input_file" = Some f →
  disallowed f →
  ∃ w',
    edit_post sf pid req w = (Ok (Redirect URequest), w')
    ∧ (∀ pid0 w0,
         save_post_file sf (Some f) pid0 w0 = (Raise (rejection f), w0))
    ∧ flashes w'
        = flashes w ++ (update_flash <$> field_updates info req)
          ++ [str_exn (rejection f)]
    ∧ (str_exn (rejection f) = invalid_file_type
       ∨ str_exn (rejection f) = "list index out of range")
    ∧ fs w' = fs w
    ∧ post_files (db w') = post_files (db w)
    ∧ posts (db w') !! pid
        = Some (PostRow (post_id info) (Some uid) (form_get req "header")
                  (form_get req "post_type") (form_get req "host_name")
                  (form_get req "target_audience") (form_get req "job_role")
                  (form_get req "job_level") (form_get req "post_body")
                  (created info)).
Proof.
  intros Huid Hinfo Hown Hpost Hsub Hdel Hfile Hf.
  rewrite (edit_post_update_branch sf pid req w uid info) by done.
  set (w0 := set_db_log (λ l, l ++ [GetPostInfo pid]) w).
  assert (posts (db w0) !! pid = Some info) as Hinfo0 by by destruct w.
  destruct (edit_post_db_effect pid info (form_get req "header")
              (form_get req "post_type") (form_get req "host_name")
              (form_get req "target_audience") (form_get req "job_role")
              (form_get req "job_level") (form_get req "post_body") w0 Hinfo0)
    as (w2 & Hedit & Hs2 & Hfl2 & Hfs2 & Hpf2 & Hrow & _).
  fold (field_updates info req) in Hedit.
  pose proof (save_post_file_raises_rejection sf f Hf) as He.
  eexists. split.
  - erewrite try_ok; [reflexivity|].
    unfold update_post. rewrite Hdel. simpl.
    erewrite bind_ok; [|reflexivity].
    erewrite bind_ok; [|exact Hedit].
    unfold finish_update. cbv zeta.
    erewrite bind_ok; [|apply (flash_loop _ update_flash)].
    rewrite Hfile.
    rewrite (proj2 (nonempty_true _) (proj1 Hf) : file_truthy (Some f) = true).
    erewrite bind_ok;
      [| erewrite try_raise;
           [| erewrite bind_raise; [| apply He]; reflexivity ]; reflexivity ].
    reflexivity.
  - split; [exact He|]. simpl. rewrite Hfl2, Hfs2, Hpf2, Hrow, Hown.
    split; [destruct w; simpl; by rewrite <- (assoc_L (++))|].
    split; [|by destruct w].
    unfold rejection. destruct (pystr.rsplit_dot_1 (filename f)); auto.
Qed.

Lemma edit_post_applies_edits_before_rejecting_upload_witness :
  s_user_id (session two_posts_world) = Some 1
  ∧ posts (db two_posts_world) !! 1 = Some flyer
  ∧ posted_by flyer = Some 1
  ∧ method retitle_with_installer = POST
  ∧ form_get retitle_with_installer "submit" ≠ Some "Delete Entire Post"
  ∧ form_getlist retitle_with_installer "delete_files[]" = []
  ∧ files_get retitle_with_installer "input_file" = Some installer
  ∧ disallowed installer
  ∧ ∃ w',
      edit_post keep_name 1 retitle_with_installer two_posts_world
        = (Ok (Redirect URequest), w')
      ∧ (∀ pid0 w0,
           save_post_file keep_name (Some installer) pid0 w0
             = (Raise (rejection installer), w0))
      ∧ flashes w'
          = flashes two_posts_world
            ++ (update_flash <$> field_updates flyer retitle_with_installer)
            ++ [str_exn (rejection installer)]
      ∧ (str_exn (rejection installer) = invalid_file_type
         ∨ str_exn (rejection installer) = "list index out of range")
      ∧ fs w' = fs two_posts_world
      ∧ post_files (db w') = post_files (db two_posts_world)
      ∧ posts (db w') !! 1
          = Some (PostRow (post_id flyer) (Some 1)
                    (form_get retitle_with_installer "header")
                    (form_get retitle_with_installer "post_type")
                    (form_get retitle_with_installer "host_name")
                    (form_get retitle_with_installer "target_audience")
                    (form_get retitle_with_installer "job_role")
                    (form_get retitle_with_installer "job_level")
                    (form_get retitle_with_installer "post_body")
                    (created flyer)).
Proof.
  assert (form_get retitle_with_installer "submit" ≠ Some "Delete Entire Post")
    as Hsub by (intros [=]).
  do 4 (split; [reflexivity|]). split; [exact Hsub|].
  do 2 (split; [reflexivity|]). split; [exact installer_disallowed|].
  exact (edit_post_applies_edits_before_rejecting_upload keep_name 1
           retitle_with_installer two_posts_world 1 flyer installer
           eq_refl eq_refl eq_refl eq_refl Hsub eq_refl eq_refl
           installer_disallowed).
Defined.

(** The scenario run: one field differs, its note comes first and the
    error of the executable last. *)
Lemma retitle_with_installer_runs :
  let '(r, w) := edit_post keep_name 1 retitle_with_installer two_posts_world in
  r = Ok (Redirect URequest)
  ∧ flashes w = ["Successfully updated header!"; invalid_file_type]
  ∧ header <$> posts (db w) !! 1 = Some (Some "Networking Morning")
  ∧ post_files (db w) = post_files (db two_posts_world)
  ∧ fs w = fs two_posts_world.
Proof. vm_compute. done. Qed.

Lemma unlink_one_effect pid name w :
  unlink_one pid name w = (Ok (), unlinked pid w name).
Proof.
  destruct w as [s fl d [pu po] l].
  unfold unlink_one, unlinked, post_db.delete_post_file, delete_post_file.
  run. unset.
  destruct (po !! name) as [data|] eqn:Hname; simpl; [done|].
  by rewrite (delete_id po name Hname).
Qed.

Lemma unlink_loop pid names w :
  for_each names (unlink_one pid) w = (Ok (), foldl (unlinked pid) w names).
Proof.
  revert w. induction names as [|n names IH]; intros w; simpl; [done|].
  erewrite bind_ok; [|apply unlink_one_effect]. apply IH.
Qed.

Lemma unlinked_all_uploads pid names w :
  post_uploads (fs (foldl (unlinked pid) w names))
  = foldl (λ d n, delete n d) (post_uploads (fs w)) names
  ∧ profile_uploads (fs (foldl (unlinked pid) w names)) = profile_uploads (fs w).
Proof.
  revert w. induction names as [|n names IH]; intros w; simpl; [done|].
  destruct (IH (unlinked pid w n)) as [-> ->]. done.
Qed.

Lemma unlinked_all_rows pid names w :
  post_files (db (foldl (unlinked pid) w names))
  = foldl (λ l n, filter (λ r, r ≠ (pid, n)) l) (post_files (db w)) names.
Proof.
  revert w. induction names as [|n names IH]; intros w; simpl; [done|].
  by rewrite IH.
Qed.

Lemma lookup_deleted_names (d : gmap string string) names k :
  foldl (λ d n, delete n d) d names !! k
  = if decide (k ∈ names) then None else d !! k.
Proof.
  revert d. induction names as [|n names IH]; intros d; simpl.
  - destruct (decide (k ∈ [])) as [Hin|]; [|done].
    by apply not_elem_of_nil in Hin.
  - rewrite IH.
    destruct (decide (k ∈ names)) as [Hin|Hnin],
             (decide (k ∈ n :: names)) as [Hin'|Hnin']; try done.
    + exfalso. apply Hnin'. by apply list_elem_of_further.
    + apply elem_of_cons in Hin' as [->|?]; [|done]. apply lookup_delete_eq.
    + apply lookup_delete_ne. intros ->. apply Hnin'. apply list_elem_of_here.
Qed.

Lemma elem_of_unlinked_rows (pid : Z) names (l : list (Z * string)) r :
  r ∈ foldl (λ l n, filter (λ r, r ≠ (pid, n)) l) l names
  ↔ r ∈ l ∧ ¬ (r.1 = pid ∧ r.2 ∈ names).
Proof.
  revert l. induction names as [|n names IH]; intros l; simpl.
  - split; [intros Hr; split; [done|] | by intros [? _]].
    intros [_ Hin]. by apply not_elem_of_nil in Hin.
  - rewrite IH, list_elem_of_filter. destruct r as [p name]. simpl. split.
    + intros [[Hne Hin] Hrest]. split; [done|].
      intros [-> [->|?]%elem_of_cons]; [done|]. by apply Hrest.
    + intros [Hin Hno]. split; [split; [|done]|].
      * intros [= -> ->]. apply Hno. split; [done|]. apply list_elem_of_here.
      * intros [-> ?]. apply Hno. split; [done|]. by apply list_elem_of_further.
Qed.

Lemma finish_update_keeps_attachments sf pid req updates :
  file_truthy (files_get req "input_file") = false →
  ends_in (finish_update sf pid req updates) same_attachments.
Proof.
  intros Hfile. unfold finish_update. rewrite Hfile. frame_all.
Qed.

(** X14: An update by the author with plain file names in
    [delete_files[]] and no new file: whatever else the request does and
    however it ends, every named file is gone from the post upload
    directory and the attachment rows of this post under those names are
    gone.  The names are not checked against the post: a file that is
    another post's attachment is removed from the directory all the
    same, while that post's row stays.  Files not named stay, the
    profile pictures stay, and a name without a file does not stop the
    update.  (A name with path parts is outside this statement: see
    [delete_post_file].) *)
Theorem edit_post_unlinks_named_files sf pid req w uid info :
  s_user_id (session w) = Some uid →
  posts (db w) !! pid = Some info →
  posted_by info = Some uid →
  method req = POST →
  form_get req "submit" ≠ Some "Delete Entire Post" →
  file_truthy (files_get req "input_file") = false →
  Forall plain_name (form_getlist req "delete_files[]") →
  let names := form_getlist req "delete_files[]" in
  let w' := (edit_post sf pid req w).2 in
  (∀ n, n ∈ names → post_uploads (fs w') !! n = None)
  ∧ (∀ n, n ∉ names → post_uploads (fs w') !! n = post_uploads (fs w) !! n)
  ∧ (∀ r, r ∈ post_files (db w')
          ↔ r ∈ post_files (db w) ∧ ¬ (r.1 = pid ∧ r.2 ∈ names))
  ∧ profile_uploads (fs w') = profile_uploads (fs w).
Proof.
  intros Huid Hinfo Hown Hpost Hsub Hfile _ names w'. unfold w'.
  rewrite (edit_post_update_branch sf pid req w uid info) by done.
  set (w0 := set_db_log (λ l, l ++ [GetPostInfo pid]) w).
  set (w1 := foldl (unlinked pid) w0 names).
  assert (same_attachments w1
            (try_except (update_post sf pid req info) unexpected_error w0).2)
    as [Hfs Hrows].
  { apply try_after; [apply _ | |].
    - unfold update_post. eapply bind_after; [apply unlink_loop|].
      apply ends_in_bind; [apply _ | |].
      + unfold post_db.edit_post. frame_all.
      + intros updates. by apply finish_update_keeps_attachments.
    - intros e. unfold unexpected_error. frame_all. }
  rewrite Hfs, Hrows. unfold w1.
  destruct (unlinked_all_uploads pid names w0) as [-> ->].
  rewrite unlinked_all_rows.
  assert (fs w0 = fs w ∧ post_files (db w0) = post_files (db w)) as [-> ->]
    by by destruct w.
  split; [|split; [|split]].
  - intros n Hn. rewrite lookup_deleted_names. by rewrite decide_True.
  - intros n Hn. rewrite lookup_deleted_names. by rewrite decide_False.
  - intros r. apply elem_of_unlinked_rows.
  - done.
Qed.

Lemma offer_is_plain : plain_name "2_offer.pdf".
Proof.
  repeat split; try (intros [=]).
  - intros Hin. apply contains_spec in Hin. vm_compute in Hin. discriminate.
  - intros Hin. apply contains_spec in Hin. vm_compute in Hin. discriminate.
Defined.

Lemma unlink_foreign_file_names_plain :
  Forall plain_name (form_getlist unlink_foreign_file "delete_files[]").
Proof.
  assert (form_getlist unlink_foreign_file "delete_files[]" = ["2_offer.pdf"])
    as -> by reflexivity.
  apply Forall_cons_2; [exact offer_is_plain | apply Forall_nil_2].
Defined.

Lemma edit_post_unlinks_named_files_witness :
  s_user_id (session two_posts_world) = Some 1
  ∧ posts (db two_posts_world) !! 1 = Some flyer
  ∧ posted_by flyer = Some 1
  ∧ method unlink_foreign_file = POST
  ∧ form_get unlink_foreign_file "submit" ≠ Some "Delete Entire Post"
  ∧ file_truthy (files_get unlink_foreign_file "input_file") = false
  ∧ Forall plain_name (form_getlist unlink_foreign_file "delete_files[]")
  ∧ (∀ n, n ∈ form_getlist unlink_foreign_file "delete_files[]" →
       post_uploads
         (fs (edit_post keep_name 1 unlink_foreign_file two_posts_world).2)
         !! n = None)
  ∧ (∀ n, n ∉ form_getlist unlink_foreign_file "delete_files[]" →
       post_uploads
         (fs (edit_post keep_name 1 unlink_foreign_file two_posts_world).2)
         !! n = post_uploads (fs two_posts_world) !! n)
  ∧ (∀ r, r ∈ post_files
              (db (edit_post keep_name 1 unlink_foreign_file two_posts_world).2)
          ↔ r ∈ post_files (db two_posts_world)
            ∧ ¬ (r.1 = 1
                 ∧ r.2 ∈ form_getlist unlink_foreign_file "delete_files[]"))
  ∧ profile_uploads
      (fs (edit_post keep_name 1 unlink_foreign_file two_posts_world).2)
    = profile_uploads (fs two_posts_world).
Proof.
  assert (form_get unlink_foreign_file "submit" ≠ Some "Delete Entire Post")
    as Hsub by (intros [=]).
  do 4 (split; [reflexivity|]). split; [exact Hsub|]. split; [reflexivity|].
  split; [exact unlink_foreign_file_names_plain|].
  exact (edit_post_unlinks_named_files keep_name 1 unlink_foreign_file
           two_posts_world 1 flyer eq_refl eq_refl eq_refl eq_refl Hsub eq_refl
           unlink_foreign_file_names_plain).
Defined.

(** The scenario run: the author of post 1 names the attachment of
    post 2; the file is gone from the directory and the row of post 2
    still points at it. *)
Lemma unlink_foreign_file_runs :
  let w' := (edit_post keep_name 1 unlink_foreign_file two_posts_world).2 in
  post_uploads (fs w') !! "2_offer.pdf" = None
  ∧ post_files (db w') = [(1, "1_flyer.pdf"); (2, "2_offer.pdf")]
  ∧ flashes w' = ["Successfully deleted 2_offer.pdf"].
Proof. vm_compute. done. Qed.

(** X15: The delete button wins over everything else in the form: the author's
    POST with [submit = "Delete Entire Post"] removes the post row and
    every attachment row of the post, applies none of the submitted
    field values, flashes the stored header and redirects home. *)
Theorem edit_post_delete_removes_post sf pid req w uid info :
  s_user_id (session w) = Some uid →
  posts (db w) !! pid = Some info →
  posted_by info = Some uid →
  method req = POST →
  form_get req "submit" = Some "Delete Entire Post" →
  ∃ w', edit_post sf pid req w = (Ok (Redirect UHome), w')
    ∧ posts (db w') = delete pid (posts (db w))
    ∧ (∀ r, r ∈ post_files (db w') ↔ r ∈ post_files (db w) ∧ r.1 ≠ pid)
    ∧ flashes w'
        = flashes w ++ ["Post(" +:+ str_opt (header info)
                          +:+ ") was deleted successfully"]
    ∧ session w' = session w.
Proof.
  intros Huid Hinfo Hown Hpost Hsub.
  destruct w as [[un ui li vi] fl d fs0 l]; simpl in *; subst.
  eexists. split.
  - unfold edit_post. run. unfold post_db.get_post_info. run. unset.
    rewrite Hinfo, Hown. rewrite bool_decide_true by done. simpl.
    rewrite Hpost. rewrite bool_decide_true by done.
    unfold post_db.delete_post. run. reflexivity.
  - simpl. split; [done|]. split; [|done].
    intros r. rewrite list_elem_of_filter. tauto.
Qed.

Lemma edit_post_delete_removes_post_witness :
  s_user_id (session two_posts_world) = Some 1
  ∧ posts (db two_posts_world) !! 1 = Some flyer
  ∧ posted_by flyer = Some 1
  ∧ method delete_flyer = POST
  ∧ form_get delete_flyer "submit" = Some "Delete Entire Post"
  ∧ ∃ w', edit_post keep_name 1 delete_flyer two_posts_world
            = (Ok (Redirect UHome), w')
      ∧ posts (db w') = delete 1 (posts (db two_posts_world))
      ∧ (∀ r, r ∈ post_files (db w')
              ↔ r ∈ post_files (db two_posts_world) ∧ r.1 ≠ 1)
      ∧ flashes w'
          = flashes two_posts_world
            ++ ["Post(" +:+ str_opt (header flyer)
                  +:+ ") was deleted successfully"]
      ∧ session w' = session two_posts_world.
Proof.
  do 5 (split; [reflexivity|]).
  exact (edit_post_delete_removes_post keep_name 1 delete_flyer
           two_posts_world 1 flyer eq_refl eq_refl eq_refl eq_refl eq_refl).
Defined.

(** ** Profiles *)

(** X16: [profile_setup] always answers.  Without a user id in the session,
    or with the id 0, it flashes "User not logged in." and redirects to
    the welcome page; otherwise it answers with the setup page or, for a
    POST, with the redirect to the user's own profile.  No request makes
    it end in an unhandled error. *)
Theorem profile_setup_always_answers sf kind req w :
  ((s_user_id (session w) = None ∨ s_user_id (session w) = Some 0)
   ∧ profile_setup sf kind req w =
       (Ok (Redirect UIndex), set_flashes (λ fl, fl ++ ["User not logged in."]) w))
  ∨ (∃ u, s_user_id (session w) = Some u ∧ u ≠ 0
      ∧ ((profile_setup sf kind req w).1 = Ok (Render (ProfileSetup (Some u)))
         ∨ (method req = POST
            ∧ (profile_setup sf kind req w).1 = Ok (Redirect (UProfile u))))).
Proof.
  destruct w as [[un [u|] li vi] fl d f l]; [|left; split; [by left | done]].
  destruct (decide (u = 0)) as [->|Hu]; [left; split; [by right | done]|].
  right. exists u. split; [done|]. split; [done|].
  unfold profile_setup. run. rewrite bool_decide_false by done. simpl.
  destruct (method req); [by left|].
  unfold user_db.add_user_info, user_db.upload_profile_pic, files_item,
    save_profile_upload. run.
  destruct (files_get req "pic") as [pic|]; simpl; [|by left].
  destruct (pystr.nonempty (filename pic)); simpl; [|by right].
  destruct (bool_decide (pystr.split_dot_last (filename pic) ∈ allowed_extensions));
    simpl; auto.
Qed.

(** X17: A profile setup POST without a [pic] part: the profile data is
    written first, then [request.files['pic']] fails; the user sees
    "Error setting up profile" and the setup page again, but the row is
    stored.  No picture is recorded or saved. *)
Theorem profile_setup_without_picture_part sf kind req w uid :
  s_user_id (session w) = Some uid →
  uid ≠ 0 →
  method req = POST →
  files_get req "pic" = None →
  ∃ w', profile_setup sf kind req w = (Ok (Render (ProfileSetup (Some uid))), w')
    ∧ profiles (db w') !! uid
        = Some (cleaned_user_data kind req ∪ default ∅ (profiles (db w) !! uid))
    ∧ flashes w' = flashes w ++ ["Error setting up profile. Please try again."]
    ∧ picfile (db w') = picfile (db w)
    ∧ fs w' = fs w.
Proof.
  intros Huid Hu Hpost Hpic.
  destruct w as [[un ui li vi] fl d f l]; simpl in *; subst.
  eexists. split.
  - unfold profile_setup. run. rewrite bool_decide_false by done. simpl.
    rewrite Hpost. unfold user_db.add_user_info, files_item. run.
    rewrite Hpic. reflexivity.
  - unset. repeat split; try done. apply lookup_insert_eq.
Qed.

Lemma profile_setup_without_picture_part_witness :
  s_user_id (session two_posts_world) = Some 1
  ∧ 1 ≠ 0
  ∧ method setup_without_picture = POST
  ∧ files_get setup_without_picture "pic" = None
  ∧ ∃ w', profile_setup keep_name mentorship_is_boolean setup_without_picture
            two_posts_world
            = (Ok (Render (ProfileSetup (Some 1))), w')
      ∧ profiles (db w') !! 1
          = Some (cleaned_user_data mentorship_is_boolean setup_without_picture
                    ∪ default ∅ (profiles (db two_posts_world) !! 1))
      ∧ flashes w'
          = flashes two_posts_world
            ++ ["Error setting up profile. Please try again."]
      ∧ picfile (db w') = picfile (db two_posts_world)
      ∧ fs w' = fs two_posts_world.
Proof.
  assert (1 ≠ 0) as Hu by lia.
  split; [reflexivity|]. split; [exact Hu|].
  split; [reflexivity|]. split; [reflexivity|].
  exact (profile_setup_without_picture_part keep_name mentorship_is_boolean
           setup_without_picture two_posts_world 1 eq_refl Hu eq_refl eq_refl).
Defined.

(** X18: A profile update POST without a [pic] part: [update_profile]
    reads [request.files['pic']] outside any [try] and before anything
    is written, so the request ends in the bad-request error and the
    world is untouched. *)
Theorem update_profile_without_picture_part sf kind req w uid :
  s_user_id (session w) = Some uid →
  method req = POST →
  files_get req "pic" = None →
  update_profile sf kind req w = (Raise (BadRequestKeyError "pic"), w).
Proof.
  intros Huid Hpost Hpic.
  destruct w as [[un ui li vi] fl d f l]; simpl in *; subst.
  unfold update_profile. run. rewrite Hpost. unfold files_item.
  by rewrite Hpic.
Qed.

Lemma update_profile_without_picture_part_witness :
  s_user_id (session two_posts_world) = Some 1
  ∧ method setup_without_picture = POST
  ∧ files_get setup_without_picture "pic" = None
  ∧ update_profile keep_name mentorship_is_boolean setup_without_picture
      two_posts_world
    = (Raise (BadRequestKeyError "pic"), two_posts_world).
Proof.
  do 3 (split; [reflexivity|]).
  exact (update_profile_without_picture_part keep_name mentorship_is_boolean
           setup_without_picture two_posts_world 1 eq_refl eq_refl eq_refl).
Defined.

(** X19: A profile update with a new picture whose extension, taken as it is
    written, is one of png, jpg, jpeg: the file is saved as
    "<uid>.<extension>", recorded as the user's picture, the caller is
    sent to the profile, and [profile_pic] for that user then serves the
    uploaded bytes. *)
Theorem update_profile_stores_picture sf kind req w uid f :
  s_user_id (session w) = Some uid →
  method req = POST →
  form_get req "delete_file" ≠ Some "yes" →
  files_get req "pic" = Some f →
  filename f ≠ "" →
  pystr.split_dot_last (filename f) ∈ allowed_extensions →
  let name := sf (pretty uid +:+ "." +:+ pystr.split_dot_last (filename f)) in
  ∃ w', update_profile sf kind req w = (Ok (Redirect (UProfile uid)), w')
    ∧ picfile (db w') !! uid = Some name
    ∧ profile_uploads (fs w') !! name = Some (content f)
    ∧ (profile_pic uid w').1 = Ok (SendFile name (content f)).
Proof.
  intros Huid Hpost Hdel Hpic Hname Hext name.
  destruct w as [[un ui li vi] fl d fs0 l]; simpl in *; subst.
  eexists. split.
  - unfold update_profile. run. rewrite Hpost.
    unfold files_item. rewrite Hpic. run.
    rewrite bool_decide_false by done.
    rewrite (proj2 (nonempty_true _) Hname).
    rewrite bool_decide_true by done. simpl.
    unfold save_profile_upload, user_db.upload_profile_pic,
      user_db.update_profile. run. reflexivity.
  - unset. fold name.
    assert (<[uid:=name]> (picfile d) !! uid = Some name) as Hrec
      by apply lookup_insert_eq.
    assert (<[name:=content f]> (profile_uploads fs0) !! name = Some (content f))
      as Hdisk by apply lookup_insert_eq.
    split; [done|]. split; [done|].
    unfold profile_pic. run. unfold user_db.serve_profile_picture. run. unset.
    rewrite Hrec. simpl. by rewrite Hdisk.
Qed.

Lemma portrait_extension : pystr.split_dot_last (filename portrait) ∈ allowed_extensions.
Proof. apply (bool_decide_unpack _). vm_compute. exact I. Defined.

Lemma update_profile_stores_picture_witness :
  s_user_id (session two_posts_world) = Some 1
  ∧ method new_portrait = POST
  ∧ form_get new_portrait "delete_file" ≠ Some "yes"
  ∧ files_get new_portrait "pic" = Some portrait
  ∧ filename portrait ≠ ""
  ∧ pystr.split_dot_last (filename portrait) ∈ allowed_extensions
  ∧ ∃ w', update_profile keep_name mentorship_is_boolean new_portrait
            two_posts_world
            = (Ok (Redirect (UProfile 1)), w')
      ∧ picfile (db w') !! 1
          = Some (keep_name (pretty 1 +:+ "."
                               +:+ pystr.split_dot_last (filename portrait)))
      ∧ profile_uploads (fs w')
          !! keep_name (pretty 1 +:+ "."
                          +:+ pystr.split_dot_last (filename portrait))
          = Some (content portrait)
      ∧ (profile_pic 1 w').1
          = Ok (SendFile
                  (keep_name (pretty 1 +:+ "."
                                +:+ pystr.split_dot_last (filename portrait)))
                  (content portrait)).
Proof.
  assert (form_get new_portrait "delete_file" ≠ Some "yes") as Hdel
    by (intros [=]).
  assert (filename portrait ≠ "") as Hname by (intros [=]).
  do 2 (split; [reflexivity|]). split; [exact Hdel|].
  split; [reflexivity|]. split; [exact Hname|].
  split; [exact portrait_extension|].
  exact (update_profile_stores_picture keep_name mentorship_is_boolean
           new_portrait two_posts_world 1 portrait eq_refl eq_refl Hdel
           eq_refl Hname portrait_extension).
Defined.

(** X20: A profile update that asks for the picture to be deleted never
    saves the file submitted with it: the post uploads are untouched,
    and the picture record and its file are either both removed (the
    file was in the upload directory) or both left as they were. *)
Theorem update_profile_delete_ignores_upload sf kind req w uid f :
  s_user_id (session w) = Some uid →
  method req = POST →
  form_get req "delete_file" = Some "yes" →
  files_get req "pic" = Some f →
  let w' := (update_profile sf kind req w).2 in
  post_uploads (fs w') = post_uploads (fs w)
  ∧ ((∃ name data, picfile (db w) !! uid = Some name
        ∧ profile_uploads (fs w) !! name = Some data
        ∧ picfile (db w') = delete uid (picfile (db w))
        ∧ profile_uploads (fs w') = delete name (profile_uploads (fs w)))
     ∨ (picfile (db w') = picfile (db w)
        ∧ profile_uploads (fs w') = profile_uploads (fs w))).
Proof.
  intros Huid Hpost Hdel Hpic w'. unfold w'. clear w'.
  destruct w as [[un ui li vi] fl d fs0 l]; simpl in *; subst.
  unfold update_profile. run. rewrite Hpost.
  unfold files_item. rewrite Hpic. run.
  rewrite bool_decide_true by done.
  unfold user_db.serve_profile_picture, remove_picture_if_on_disk,
    user_db.delete_profile_pic, user_db.update_profile. run. unset.
  destruct (picfile d !! uid) as [name|] eqn:Hrec; simpl.
  - destruct (profile_uploads fs0 !! name) as [data|] eqn:Hdisk; simpl.
    + split; [done|]. left. by exists name, data.
    + split; [done|]. by right.
  - split; [done|]. by right.
Qed.

Lemma update_profile_delete_ignores_upload_witness :
  s_user_id (session two_posts_world) = Some 1
  ∧ method delete_and_upload = POST
  ∧ form_get delete_and_upload "delete_file" = Some "yes"
  ∧ files_get delete_and_upload "pic" = Some portrait
  ∧ post_uploads
      (fs (update_profile keep_name mentorship_is_boolean delete_and_upload
             two_posts_world).2)
    = post_uploads (fs two_posts_world)
  ∧ ((∃ name data, picfile (db two_posts_world) !! 1 = Some name
        ∧ profile_uploads (fs two_posts_world) !! name = Some data
        ∧ picfile
            (db (update_profile keep_name mentorship_is_boolean
                   delete_and_upload two_posts_world).2)
          = delete 1 (picfile (db two_posts_world))
        ∧ profile_uploads
            (fs (update_profile keep_name mentorship_is_boolean
                   delete_and_upload two_posts_world).2)
          = delete name (profile_uploads (fs two_posts_world)))
     ∨ (picfile
          (db (update_profile keep_name mentorship_is_boolean
                 delete_and_upload two_posts_world).2)
        = picfile (db two_posts_world)
        ∧ profile_uploads
            (fs (update_profile keep_name mentorship_is_boolean
                   delete_and_upload two_posts_world).2)
          = profile_uploads (fs two_posts_world))).
Proof.
  do 4 (split; [reflexivity|]).
  exact (update_profile_delete_ignores_upload keep_name mentorship_is_boolean
           delete_and_upload two_posts_world 1 portrait
           eq_refl eq_refl eq_refl eq_refl).
Defined.

(** X21: The profile view of a stored user shows the mentorship flag as
    text: 0 or False as "Not Interested", 1 or True as "Interested", and
    anything else (null, or the digits as a string) as "Not Specified
    (Inactive User)".  The row is only read. *)
Theorem profile_shows_mentorship_label conv user_id w uid d v :
  s_user_id (session w) = Some uid →
  profiles (db w) !! user_id = Some d →
  d ≠ ∅ →
  conv d !! "is_interested_in_mentorship" = Some v →
  ∃ label,
    profile conv user_id w =
      (Ok (Render (ProfileView uid (UProfilePic user_id) user_id
             (<["is_interested_in_mentorship" := VStr label]> (conv d)))),
       set_db_log (λ l, l ++ [GetProfile (Some user_id)]) w)
    ∧ (v = VInt 0 ∨ v = VBool false → label = "Not Interested")
    ∧ (v = VInt 1 ∨ v = VBool true → label = "Interested")
    ∧ (v ≠ VInt 0 → v ≠ VBool false → v ≠ VInt 1 → v ≠ VBool true →
       label = "Not Specified (Inactive User)").
Proof.
  intros Huid Hrow Hne Hv.
  destruct w as [[un ui li vi] fl db0 f l]; simpl in *; subst.
  eexists. split.
  - unfold profile. run. unfold user_db.get_profile. run. unset.
    rewrite Hrow. rewrite bool_decide_false by done.
    unfold dict_item. rewrite Hv. reflexivity.
  - split; [|split].
    + by intros [-> | ->].
    + by intros [-> | ->].
    + intros H0 Hf H1 Ht.
      destruct v as [|[]|n|s]; simpl; try done.
      rewrite !bool_decide_false; [done| |]; congruence.
Qed.

Lemma profile_shows_mentorship_label_witness :
  s_user_id (session mentor_world) = Some 1
  ∧ profiles (db mentor_world) !! 1
      = Some {[ "name" := VStr "Alice"; "is_interested_in_mentorship" := VInt 1 ]}
  ∧ ({[ "name" := VStr "Alice"; "is_interested_in_mentorship" := VInt 1 ]} : row) ≠ ∅
  ∧ show_row {[ "name" := VStr "Alice"; "is_interested_in_mentorship" := VInt 1 ]}
      !! "is_interested_in_mentorship" = Some (VInt 1)
  ∧ ∃ label,
      profile show_row 1 mentor_world =
        (Ok (Render (ProfileView 1 (UProfilePic 1) 1
               (<["is_interested_in_mentorship" := VStr label]>
                  (show_row {[ "name" := VStr "Alice";
                               "is_interested_in_mentorship" := VInt 1 ]})))),
         set_db_log (λ l, l ++ [GetProfile (Some 1)]) mentor_world)
      ∧ (VInt 1 = VInt 0 ∨ VInt 1 = VBool false → label = "Not Interested")
      ∧ (VInt 1 = VInt 1 ∨ VInt 1 = VBool true → label = "Interested")
      ∧ (VInt 1 ≠ VInt 0 → VInt 1 ≠ VBool false → VInt 1 ≠ VInt 1 →
         VInt 1 ≠ VBool true → label = "Not Specified (Inactive User)").
Proof.
  assert (({[ "name" := VStr "Alice";
              "is_interested_in_mentorship" := VInt 1 ]} : row) ≠ ∅) as Hne.
  { intros Heq. apply (f_equal (λ m : row, m !! "name")) in Heq.
    vm_compute in Heq. discriminate. }
  split; [reflexivity|]. split; [reflexivity|]. split; [exact Hne|].
  split; [reflexivity|].
  exact (profile_shows_mentorship_label show_row 1 mentor_world 1 _ (VInt 1)
           eq_refl eq_refl Hne eq_refl).
Defined.
